(** * Secure password generator

    A shallow embedding of [generatePassword] (the library entry point) and
    of [calculateCharsetSize] (the command-line front end's charset
    accounting), followed by the properties of the design specification
    that concern them; then of the front end's [main] and
    [displayPassword] and of the test script, with properties read off
    the code (X1 and following).

    JavaScript values are modelled by an inductive type, an options object
    by a finite map from property names to values, strings by [string]
    (every string the generator builds is ASCII, so one [ascii] is one
    UTF-16 code unit), and the secure random source by the sequence of the
    outcomes of its successive calls, threaded through a small state and
    exception monad whose state is the number of calls made so far. *)

From Stdlib Require Import ZArith QArith Qcanon Qround String Ascii List Bool Lia.
From stdpp Require Import gmap strings.

Local Open Scope string_scope.
Local Open Scope Z_scope.

(** ** JavaScript values and the primitives the generator uses *)

Module JS.

(** A Number: the finite doubles are rationals (kept in canonical form, so
    that equality is Leibniz equality); every operation the generator
    applies to a number is exact on them. *)
Inductive number :=
  | NaN
  | Infinity (negative : bool)
  | Finite (q : Qc).

#[warnings="-register-all"] Inductive value :=
  | VUndefined
  | VNull
  | VBoolean (b : bool)
  | VNumber (n : number)
  | VString (s : string)
  | VFunction
  | VObject (fields : gmap string value).

(** The Number with the integer value [z]. *)
Definition int (z : Z) : value := VNumber (Finite (Q2Qc (inject_Z z))).

(** [typeof v] *)
Definition typeof (v : value) : string :=
  match v with
  | VUndefined => "undefined"
  | VNull => "object"
  | VBoolean _ => "boolean"
  | VNumber _ => "number"
  | VString _ => "string"
  | VFunction => "function"
  | VObject _ => "object"
  end.

(** [v === null] *)
Definition is_null (v : value) : bool :=
  match v with VNull => true | _ => false end.

(** [Number.isInteger(v)]: false on every value that is not a Number, on
    NaN and on the infinities. *)
Definition Number_isInteger (v : value) : bool :=
  match v with
  | VNumber (Finite q) => Pos.eqb (Qden (this q)) 1
  | _ => false
  end.

(** The integer a Number stands for, once [Number_isInteger] holds of it. *)
Definition integer_value (v : value) : Z :=
  match v with
  | VNumber (Finite q) => Qnum (this q)
  | _ => 0
  end.

(** Truthiness, as the condition of an [if] coerces its operand. *)
Definition ToBoolean (v : value) : bool :=
  match v with
  | VUndefined | VNull => false
  | VBoolean b => b
  | VNumber NaN => false
  | VNumber (Infinity _) => true
  | VNumber (Finite q) => negb (Z.eqb (Qnum (this q)) 0)
  | VString s => negb (String.eqb s "")
  | VFunction | VObject _ => true
  end.

(** [o.key] for an own data property of an object; a missing property
    reads as [undefined]. *)
Definition property (o : value) (key : string) : value :=
  match o with
  | VObject fields => default VUndefined (fields !! key)
  | _ => VUndefined
  end.

(** One binding [key = d] of a destructuring pattern [{ key = d } = o]:
    the default is taken exactly when the property reads as [undefined]. *)
Definition destructure (o : value) (key : string) (d : value) : value :=
  match property o key with
  | VUndefined => d
  | v => v
  end.

(** [s.charAt(i)]: the one-character string at index [i], or the empty
    string when [i] is out of range. *)
Definition charAt (s : string) (i : Z) : string :=
  if i <? 0 then ""
  else match String.get (Z.to_nat i) s with
       | Some c => String c ""
       | None => ""
       end.

(** [s.includes(sub)] *)
Definition includes (s sub : string) : bool :=
  match String.index 0 sub s with
  | Some _ => true
  | None => false
  end.

(** A regular expression that is a single character class [[...]]. *)
Definition char_class := list ascii.

Definition class_matches (cls : char_class) (c : ascii) : bool :=
  existsb (Ascii.eqb c) cls.

(** [s.replace(/[cls]/g, "")]: scan left to right, drop each match. *)
Fixpoint replace_class_global (cls : char_class) (s : string) : string :=
  match s with
  | EmptyString => EmptyString
  | String c rest =>
      if class_matches cls c then replace_class_global cls rest
      else String c (replace_class_global cls rest)
  end.

(** [/[cls]/.test(s)] *)
Fixpoint test_class (cls : char_class) (s : string) : bool :=
  match s with
  | EmptyString => false
  | String c rest => class_matches cls c || test_class cls rest
  end.

End JS.

(** ** The password generator *)

Module Generator.
Import JS.

(** *** The secure random source

    One call [crypto.getRandomValues(new Uint32Array(1))] either fills the
    array with a word or raises an exception carrying a message. *)
Inductive draw :=
  | Filled (word : Z)
  | Raised (message : string).

(** The source, as the outcome of its [k]-th call for every [k]. *)
Definition random_source := nat -> draw.

(** The global [crypto]: undefined, or an object whose [getRandomValues]
    may be missing. *)
Inductive crypto_global :=
  | CryptoUndefined
  | CryptoObject (getRandomValues : option random_source).

(** *** Errors

    One constructor for each [throw new Error(...)] of [generatePassword],
    in source order. *)
Inductive error :=
  | OptionsNotObject      (* 'Options must be an object' *)
  | LengthNotInteger      (* 'Length must be an integer' *)
  | LengthTooSmall        (* 'Password length must be at least 1 character' *)
  | LengthTooLarge        (* 'Password length cannot exceed 1000 characters for security reasons' *)
  | SymbolsNotBoolean     (* 'Symbols option must be a boolean' *)
  | ReadableNotBoolean    (* 'Readable option must be a boolean' *)
  | CryptoUnavailable     (* 'Cryptographically secure random number generator is not available. ...' *)
  | NoCharacters          (* 'No characters available for password generation after applying filters' *)
  | CharsetTooSmall       (* 'Character set is too small for secure password generation' *)
  | MaxAttempts           (* 'Failed to generate password after maximum attempts. ...' *)
  | RandomNumberFailed (cause : string)
                          (* `Failed to generate secure random number: ${error.message}` *)
  | LengthMismatch (actual requested : Z)
                          (* `Generated password length (...) does not match requested length (...)` *)
  | InvalidCharacters     (* 'Generated password contains invalid characters' *)
  | ConfusingCharacters.  (* 'Generated password contains confusing characters despite readable mode being enabled' *)

(** The kinds of the specification's error taxonomy, and the kind each
    thrown error falls under (by the trigger the taxonomy lists for it). *)
Inductive error_kind :=
  | InvalidArgument
  | OutOfRange
  | EnvironmentUnavailable
  | EmptyCharset
  | InsufficientEntropy
  | RandomSourceFailure
  | GenerationExhausted
  | InternalInvariantViolation.

Definition kind (e : error) : error_kind :=
  match e with
  | OptionsNotObject | LengthNotInteger | SymbolsNotBoolean
  | ReadableNotBoolean => InvalidArgument
  | LengthTooSmall | LengthTooLarge => OutOfRange
  | CryptoUnavailable => EnvironmentUnavailable
  | NoCharacters => EmptyCharset
  | CharsetTooSmall => InsufficientEntropy
  | RandomNumberFailed _ => RandomSourceFailure
  | MaxAttempts => GenerationExhausted
  | LengthMismatch _ _ | InvalidCharacters
  | ConfusingCharacters => InternalInvariantViolation
  end.

(** *** Computations: exceptions over the count of draws made so far *)

Inductive completion (A : Type) :=
  | Normal (a : A)
  | Throw (e : error).
Arguments Normal {A} a.
Arguments Throw {A} e.

Definition M (A : Type) : Type := nat -> completion A * nat.

Definition ret {A} (a : A) : M A := fun k => (Normal a, k).

Definition throw {A} (e : error) : M A := fun k => (Throw e, k).

Definition bind {A B} (m : M A) (f : A -> M B) : M B :=
  fun k =>
    match m k with
    | (Normal a, k') => f a k'
    | (Throw e, k') => (Throw e, k')
    end.

Notation "'let*' x ':=' m 'in' f" := (bind m (fun x => f))
  (at level 10, x name, m at level 100, f at level 200).

(** One call of the source: its outcome, and one more draw consumed. *)
Definition getRandomValues (source : random_source) : M draw :=
  fun k => (Normal (source k), S k).

(** [for (let i = 0; i < n; i++) body], for a body that neither reads nor
    writes [i] nor changes [n]: the body runs [n] times, unless it throws. *)
Fixpoint for_loop {State : Type} (n : nat) (body : State -> M State)
    (s : State) : M State :=
  match n with
  | O => ret s
  | S n' => let* s' := body s in for_loop n' body s'
  end.

(** *** Character sets (lines 62-74) *)

Definition letters : string :=
  "abcdefghijklmnopqrstuvwxyzABCDEFGHIJKLMNOPQRSTUVWXYZ".
Definition nums : string := "0123456789".
Definition syms : string := "!@#$%^&*()_+{}[]<>?,.".

(** The class [[O0Il1|]] of both regular expressions. *)
Definition confusingChars : char_class :=
  list_ascii_of_string "O0Il1|".

Definition build_charset (symbols readable : bool) : string :=
  let charset := letters +:+ nums in
  let charset := if symbols then charset +:+ syms else charset in
  if readable then replace_class_global confusingChars charset else charset.

(** *** The generation loop (lines 87-106) *)

Record loop_state := { password : string; attempts : Z }.

(** A Uint32Array element holds its value modulo 2^32. *)
Definition Uint32 (word : Z) : Z := word mod 2 ^ 32.

Definition loop_body (source : random_source) (charset : string)
    (maxAttempts : Z) (s : loop_state) : M loop_state :=
  let attempts := attempts s + 1 in
  if maxAttempts <? attempts then throw MaxAttempts
  else
    let* d := getRandomValues source in
    match d with
    | Filled word =>
        let randIndex := Uint32 word mod Z.of_nat (String.length charset) in
        ret {| password := password s +:+ charAt charset randIndex;
               attempts := attempts |}
    | Raised message => throw (RandomNumberFailed message)
    end.

(** *** generatePassword *)

(** The parameter default of [function generatePassword(options = {})]:
    an omitted or [undefined] argument is the empty object. *)
Definition default_parameter (options : value) : value :=
  match options with
  | VUndefined => VObject ∅
  | _ => options
  end.

Definition generatePassword (crypto : crypto_global) (options : value)
    : M string :=
  let options := default_parameter options in
  if is_null options || negb (String.eqb (typeof options) "object")
  then throw OptionsNotObject else
  let length := destructure options "length" (int 12) in
  let symbols := destructure options "symbols" (VBoolean true) in
  let readable := destructure options "readable" (VBoolean false) in
  if negb (String.eqb (typeof length) "number") || negb (Number_isInteger length)
  then throw LengthNotInteger else
  (* from here on [length] is an integral Number: its integer *)
  let length := integer_value length in
  if length <? 1 then throw LengthTooSmall else
  if 1000 <? length then throw LengthTooLarge else
  if negb (String.eqb (typeof symbols) "boolean")
  then throw SymbolsNotBoolean else
  if negb (String.eqb (typeof readable) "boolean")
  then throw ReadableNotBoolean else
  match crypto with
  | CryptoUndefined | CryptoObject None => throw CryptoUnavailable
  | CryptoObject (Some source) =>
      let charset := build_charset (ToBoolean symbols) (ToBoolean readable) in
      if Z.of_nat (String.length charset) =? 0 then throw NoCharacters else
      if Z.of_nat (String.length charset) <? 10 then throw CharsetTooSmall else
      let maxAttempts := length * 10 in
      let* s := for_loop (Z.to_nat length)
                  (loop_body source charset maxAttempts)
                  {| password := ""; attempts := 0 |} in
      let password := password s in
      if negb (Z.of_nat (String.length password) =? length)
      then throw (LengthMismatch (Z.of_nat (String.length password)) length)
      else
      if negb (forallb (fun char => includes charset (String char ""))
                 (list_ascii_of_string password))
      then throw InvalidCharacters else
      if ToBoolean readable && test_class confusingChars password
      then throw ConfusingCharacters else
      ret password
  end.

End Generator.

(** ** The command-line front end's charset accounting *)

Module Cli.

(** The parsed flags [program.opts()] that [calculateCharsetSize] reads;
    both are boolean flags with default [false]. *)
Record cli_options := { symbols : bool; readable : bool }.

Definition calculateCharsetSize (options : cli_options) : Z :=
  let size := 52 in
  let size := size + 10 in
  let size := if symbols options then size + 18 else size in
  let size := if readable options then size - 6 else size in
  size.

End Cli.

(** ** Vocabulary of the specification

    The definitions below follow the words of the specification; the
    theorems relate them to the code above. *)

Module Spec.
Import JS Generator.

(** The characters of a string, in order. *)
Definition chars (s : string) : list ascii := list_ascii_of_string s.

(** The three options as a call sees them, defaults applied. *)
Definition length_of (options : value) : value :=
  destructure (default_parameter options) "length" (int 12).
Definition symbols_of (options : value) : value :=
  destructure (default_parameter options) "symbols" (VBoolean true).
Definition readable_of (options : value) : value :=
  destructure (default_parameter options) "readable" (VBoolean false).

(** An options object that provides exactly the given fields. *)
Definition field (key : string) (v : option value)
    (o : gmap string value) : gmap string value :=
  match v with
  | Some v => <[key := v]> o
  | None => o
  end.

Definition options_object (length symbols readable : option value) : value :=
  VObject (field "length" length
            (field "symbols" symbols (field "readable" readable ∅))).

(** "A structured record (not null, not a non-object value)". *)
Definition is_record (v : value) : bool :=
  match v with
  | VObject _ => true
  | _ => false
  end.

(** "An integer": a finite number that equals its own floor. *)
Definition is_integer (v : value) : bool :=
  match v with
  | VNumber (Finite q) => Qeq_bool q (inject_Z (Qfloor q))
  | _ => false
  end.

Definition is_boolean (v : value) : bool :=
  match v with
  | VBoolean _ => true
  | _ => false
  end.

(** "The secure random source is available in the runtime environment". *)
Definition source_available (crypto : crypto_global) : bool :=
  match crypto with
  | CryptoObject (Some _) => true
  | _ => false
  end.

(** The checks of the validation phase in the order the specification
    lists them, each with the error its failure raises. *)
Definition validation_checks (crypto : crypto_global) (options : value)
    : list (bool * error) :=
  [ (is_record (default_parameter options), OptionsNotObject);
    (is_integer (length_of options), LengthNotInteger);
    (1 <=? integer_value (length_of options), LengthTooSmall);
    (integer_value (length_of options) <=? 1000, LengthTooLarge);
    (is_boolean (symbols_of options), SymbolsNotBoolean);
    (is_boolean (readable_of options), ReadableNotBoolean);
    (source_available crypto, CryptoUnavailable) ].

(** "First failing check wins". *)
Fixpoint first_failure (checks : list (bool * error)) : option error :=
  match checks with
  | [] => None
  | (passed, e) :: rest => if passed then first_failure rest else Some e
  end.

(** The first of the [n] draws numbered [k], [k+1], ... that raises, as
    its offset from [k] and the message it raises. *)
Fixpoint first_raised (source : random_source) (k n : nat)
    : option (nat * string) :=
  match n with
  | O => None
  | S n' =>
      match source k with
      | Raised message => Some (O, message)
      | Filled _ =>
          match first_raised source (S k) n' with
          | Some (j, message) => Some (S j, message)
          | None => None
          end
      end
  end.

(** The exclusion set of readable mode. *)
Definition exclusion_set : list ascii :=
  ["O"; "0"; "I"; "l"; "1"; "|"]%char.

(** The characters of the exclusion set that some alphabet holds. *)
Definition removed_characters : list ascii :=
  ["O"; "0"; "I"; "l"; "1"]%char.

(** The symbols the specification enumerates, in its order. *)
Definition listed_symbols : list ascii :=
  ["!"; "@"; "#"; "$"; "%"; "^"; "&"; "*"; "("; ")"; "_"; "+";
   "{"; "}"; "["; "]"; "<"; ">"; "?"; ","; "."]%char.

(** [n] consecutive characters starting at [first]. *)
Fixpoint char_range (first : nat) (n : nat) : list ascii :=
  match n with
  | O => []
  | S n' => ascii_of_nat first :: char_range (S first) n'
  end.

(** Lowercase a-z, then uppercase A-Z, then digits 0-9. *)
Definition base_alphabet : list ascii :=
  char_range (nat_of_ascii "a") 26 ++ char_range (nat_of_ascii "A") 26
  ++ char_range (nat_of_ascii "0") 10.

(** The retry policy as the specification words it: once validation has
    passed, a failing draw is retried, so the only failure of the
    generation loop is the exhaustion of the budget of [length * 10]
    draws. *)
Definition draw_failures_are_retried : Prop :=
  forall (source : random_source) (options : value) (k k' : nat)
         (e : error),
    first_failure (validation_checks (CryptoObject (Some source)) options)
      = None ->
    generatePassword (CryptoObject (Some source)) options k = (Throw e, k') ->
    kind e = GenerationExhausted.

(** The type rejection as the specification words it: a provided length
    that is not an integer, and a provided symbols or readable that is not
    a boolean, each make the call fail with an InvalidArgument error,
    whatever else the options hold. *)
Definition type_rejection_as_stated : Prop :=
  forall (crypto : crypto_global) (fields : gmap string value)
         (v : value) (k : nat),
    v <> VUndefined ->
    (fields !! "length" = Some v -> is_integer v = false ->
     exists (e : error) (k' : nat),
       generatePassword crypto (VObject fields) k = (Throw e, k')
       /\ kind e = InvalidArgument) /\
    (fields !! "symbols" = Some v \/ fields !! "readable" = Some v ->
     is_boolean v = false ->
     exists (e : error) (k' : nat),
       generatePassword crypto (VObject fields) k = (Throw e, k')
       /\ kind e = InvalidArgument).

(** The symbol accounting as the specification words it. *)
Definition eighteen_symbols : Prop :=
  String.length syms = 18%nat /\
  String.length (build_charset true false) = (62 + 18)%nat.

(** A source whose every draw raises, and one whose every draw fills. *)
Definition failing_source : random_source := fun _ => Raised "boom".
Definition counting_source : random_source :=
  fun k => Filled (Z.of_nat k * 7 + 3).

End Spec.

(** ** More primitives: parseInt and character classes with ranges *)

Module JSText.

(** The white space [parseInt] skips, among the code units below 256:
    TAB, LF, VT, FF, CR, SP and NBSP. *)
Definition is_white_space (c : ascii) : bool :=
  let n := nat_of_ascii c in
  existsb (Nat.eqb n) [9; 10; 11; 12; 13; 32; 160]%nat.

Fixpoint trim_start (s : string) : string :=
  match s with
  | EmptyString => EmptyString
  | String c rest => if is_white_space c then trim_start rest else s
  end.

(** The value of a character as a digit: 0-9, then a-z and A-Z from 10. *)
Definition digit_value (c : ascii) : option Z :=
  let n := Z.of_nat (nat_of_ascii c) in
  if (48 <=? n) && (n <=? 57) then Some (n - 48)
  else if (97 <=? n) && (n <=? 122) then Some (n - 97 + 10)
  else if (65 <=? n) && (n <=? 90) then Some (n - 65 + 10)
  else None.

(** The integer of the longest prefix of radix-[R] digits, read left to
    right; [acc] is the integer read so far, [None] when no digit has been
    read. *)
Fixpoint parse_digits (R : Z) (s : string) (acc : option Z) : option Z :=
  match s with
  | EmptyString => acc
  | String c rest =>
      match digit_value c with
      | Some d =>
          if d <? R then parse_digits R rest (Some (default 0 acc * R + d))
          else acc
      | None => acc
      end
  end.

(** [parseInt(s)] with no radix argument: skip leading white space, take a
    sign, take a [0x] or [0X] prefix as radix 16 (radix 10 otherwise), read
    the longest prefix of digits; [None] is NaN.  The result is the integer
    the digits denote: the front end only compares it with 1 and 1000 and
    passes it on when it lies between them, where rounding to a double
    changes nothing. *)
Definition parseInt (s : string) : option Z :=
  let text := trim_start s in
  let '(sign, text) :=
    match text with
    | String "-" rest => (-1, rest)
    | String "+" rest => (1, rest)
    | _ => (1, text)
    end in
  let '(R, text) :=
    match text with
    | String "0" (String "x" rest) => (16, rest)
    | String "0" (String "X" rest) => (16, rest)
    | _ => (10, text)
    end in
  match parse_digits R text None with
  | Some mathInt => Some (sign * mathInt)
  | None => None
  end.

(** A character class [[...]] whose items are characters and ranges. *)
Inductive class_item :=
  | Char (c : ascii)
  | Range (first last : ascii).

Definition item_matches (c : ascii) (i : class_item) : bool :=
  match i with
  | Char a => Ascii.eqb c a
  | Range first last =>
      (nat_of_ascii first <=? nat_of_ascii c)%nat
      && (nat_of_ascii c <=? nat_of_ascii last)%nat
  end.

(** [/[cls]/.test(s)] *)
Fixpoint regexp_test (cls : list class_item) (s : string) : bool :=
  match s with
  | EmptyString => false
  | String c rest => existsb (item_matches c) cls || regexp_test cls rest
  end.

End JSText.

(** ** The command-line front end: main and displayPassword *)

Module Program.
Import JS Generator JSText.

(** [program.opts()]: the length as the string given on the command line
    (default "12"), and three boolean flags. *)
Record program_options := {
  length : string;
  symbols : bool;
  readable : bool;
  verbose : bool
}.

(** What the verbose branch of [displayPassword] reports, but for the
    entropy estimate and the security line, which are floating-point
    computations on [charsetSize]. *)
Record details := {
  shown_length : Z;
  contains_symbols : bool;
  contains_numbers : bool;
  contains_uppercase : bool;
  contains_lowercase : bool;
  charsetSize : Z
}.

(** The classes of lines 109, 114, 118 and 123. *)
Definition symbol_class : list class_item :=
  [Char "!"; Char "@"; Char "#"; Char "$"; Char "%"; Char "^"; Char "&";
   Char "*"; Char "("; Char ")"; Char "_"; Char "+"; Char "{"; Char "}";
   Char "["; Char "]"; Char "<"; Char ">"; Char "?"; Char ","; Char "."].
Definition digit_class : list class_item := [Range "0" "9"].
Definition uppercase_class : list class_item := [Range "A" "Z"].
Definition lowercase_class : list class_item := [Range "a" "z"].

(** How a run of the program ends. *)
Inductive main_outcome :=
  | LengthRejected
      (* 'Length must be a number between 1 and 1000'; process.exit(1) *)
  | GenerationFailed (e : error)
      (* 'Error generating password:' and the message; process.exit(1) *)
  | ClipboardFailed (password : string) (report : option details)
      (message : string)
      (* the password was shown, then clipboard.writeSync threw: the same
         catch block; process.exit(1) *)
  | Completed (password : string) (report : option details).
      (* the password was shown and copied; the process ends normally *)

Definition exit_code (o : main_outcome) : Z :=
  match o with
  | Completed _ _ => 0
  | _ => 1
  end.

(** [clipboard.writeSync], which either succeeds ([None]) or throws. *)
Definition clipboard_writer := string -> option string.

Definition displayPassword (clipboard : clipboard_writer)
    (password : string) (options : program_options) : main_outcome :=
  let report :=
    if verbose options then
      Some {| shown_length := Z.of_nat (String.length password);
              contains_symbols := regexp_test symbol_class password;
              contains_numbers := regexp_test digit_class password;
              contains_uppercase := regexp_test uppercase_class password;
              contains_lowercase := regexp_test lowercase_class password;
              charsetSize :=
                Cli.calculateCharsetSize
                  {| Cli.symbols := symbols options;
                     Cli.readable := readable options |} |}
    else None in
  match clipboard password with
  | Some message => ClipboardFailed password report message
  | None => Completed password report
  end.

(** The argument [main] builds for the generator. *)
Definition generator_options (n : Z) (options : program_options) : value :=
  VObject (<["length" := int n]>
            (<["symbols" := VBoolean (symbols options)]>
              (<["readable" := VBoolean (readable options)]> ∅))).

Definition main (crypto : crypto_global) (clipboard : clipboard_writer)
    (options : program_options) (k : nat) : main_outcome * nat :=
  match parseInt (length options) with
  | None => (LengthRejected, k)
  | Some n =>
      if (n <? 1) || (1000 <? n) then (LengthRejected, k)
      else
        match generatePassword crypto (generator_options n options) k with
        | (Normal password, k') =>
            (displayPassword clipboard password options, k')
        | (Throw e, k') => (GenerationFailed e, k')
        end
  end.

End Program.

(** ** The test script *)

Module Tests.
Import JS Generator JSText.

Inductive test_outcome :=
  | AllPassed
  | AssertionFailed (line : nat)
  | Uncaught (e : error).

(** The class [[!@#$%^&*]] of line 9. *)
Definition tested_symbols : list class_item :=
  [Char "!"; Char "@"; Char "#"; Char "$"; Char "%"; Char "^"; Char "&";
   Char "*"].

Definition generator_test (crypto : crypto_global) (k : nat)
    : test_outcome * nat :=
  match generatePassword crypto (VObject (<["length" := int 16]> ∅)) k with
  | (Throw e, k') => (Uncaught e, k')
  | (Normal pass, k') =>
      if negb (Z.of_nat (String.length pass) =? 16)
      then (AssertionFailed 5, k')
      else
        match generatePassword crypto
                (VObject (<["length" := int 12]>
                           (<["symbols" := VBoolean false]> ∅))) k' with
        | (Throw e, k'') => (Uncaught e, k'')
        | (Normal noSymbols, k'') =>
            if negb (negb (regexp_test tested_symbols noSymbols))
            then (AssertionFailed 9, k'')
            else (AllPassed, k'')
        end
  end.

End Tests.

(** ** Further vocabulary *)

Module Spec2.
Import JS Generator.

(** The charset of a call, from its own options. *)
Definition charset_of (options : value) : string :=
  build_charset (ToBoolean (Spec.symbols_of options))
    (ToBoolean (Spec.readable_of options)).

(** The index a drawn word selects in a charset. *)
Definition selected_index (charset : string) (word : Z) : nat :=
  Z.to_nat (Uint32 word mod Z.of_nat (String.length charset)).

(** The number of words below 2^32 that select index [i] among [m]. *)
Definition words_selecting (m i : Z) : Z :=
  2 ^ 32 / m + (if i <? 2 ^ 32 mod m then 1 else 0).

(** A source that fills every draw with the same word. *)
Definition constant_source (word : Z) : random_source :=
  fun _ => Filled word.

(** The three property names the generator reads. *)
Definition option_names : list string := ["length"; "symbols"; "readable"].

(** The characters 0 to 9. *)
Definition decimal_digit (c : ascii) : bool :=
  let n := Z.of_nat (nat_of_ascii c) in
  (48 <=? n) && (n <=? 57).

(** How many of the four classes of the verbose report a character
    matches. *)
Definition classes_matching (c : ascii) : nat :=
  Nat.b2n (existsb (JSText.item_matches c) Program.symbol_class)
  + Nat.b2n (existsb (JSText.item_matches c) Program.digit_class)
  + Nat.b2n (existsb (JSText.item_matches c) Program.uppercase_class)
  + Nat.b2n (existsb (JSText.item_matches c) Program.lowercase_class).

(** A clipboard that never fails. *)
Definition working_clipboard : Program.clipboard_writer := fun _ => None.

End Spec2.

(** * Properties *)

Import JS Generator Spec.

(** ** Numbers *)

Lemma this_int (z : Z) : this (Q2Qc (inject_Z z)) = inject_Z z.
Proof. simpl. apply inject_Z_Qred. Qed.

Lemma int_isInteger (z : Z) : Number_isInteger (int z) = true.
Proof. unfold Number_isInteger, int. rewrite this_int. reflexivity. Qed.

Lemma integer_value_int (z : Z) : integer_value (int z) = z.
Proof. unfold integer_value, int. rewrite this_int. reflexivity. Qed.

Lemma isInteger_int (v : value) :
  Number_isInteger v = true -> v = int (integer_value v).
Proof.
  destruct v as [| | |[| |q]| | |]; cbn [Number_isInteger integer_value];
    try discriminate.
  intros Hden. apply Pos.eqb_eq in Hden.
  unfold int. do 2 f_equal. apply Qc_is_canon.
  destruct q as [[n d] Hcanon]. simpl in *. subst d.
  rewrite inject_Z_Qred. reflexivity.
Qed.

(** The specification's notion of an integer is the code's. *)
Lemma is_integer_isInteger (v : value) :
  is_integer v = Number_isInteger v.
Proof.
  destruct v as [| | |[| |q]| | |]; cbn [is_integer Number_isInteger];
    try reflexivity.
  destruct q as [[n d] Hcanon]. cbn [this Qden].
  unfold Qeq_bool, Qfloor. cbn [Qnum Qden inject_Z].
  destruct (Pos.eqb_spec d 1) as [->|Hd].
  - rewrite Z.div_1_r. apply Z.eqb_refl.
  - apply Z.eqb_neq. intros Heq.
    apply Qred_identity2 in Hcanon. simpl in Hcanon.
    assert (Hdiv : (Z.pos d | n)).
    { exists (n `div` Z.pos d). lia. }
    apply Z.divide_gcd_iff in Hdiv; [|lia].
    rewrite Z.gcd_comm in Hdiv. rewrite Hdiv in Hcanon.
    apply Hd. lia.
Qed.

Lemma is_integer_iff (v : value) :
  is_integer v = true <-> exists z : Z, v = int z.
Proof.
  rewrite is_integer_isInteger. split.
  - intros H. exists (integer_value v). by apply isInteger_int.
  - intros [z ->]. apply int_isInteger.
Qed.

(** ** Strings *)

Lemma length_append (s1 s2 : string) :
  String.length (s1 +:+ s2) = (String.length s1 + String.length s2)%nat.
Proof. induction s1 as [|c s1 IH]; simpl; [reflexivity | by rewrite IH]. Qed.

Lemma length_chars (s : string) : length (chars s) = String.length s.
Proof. induction s as [|c s IH]; simpl; [reflexivity | by rewrite IH]. Qed.

Lemma chars_cons (c : ascii) (s : string) : chars (String c s) = c :: chars s.
Proof. reflexivity. Qed.

Lemma chars_append (s1 s2 : string) :
  chars (s1 +:+ s2) = (chars s1 ++ chars s2)%list.
Proof. induction s1 as [|c s1 IH]; simpl; [reflexivity | by rewrite IH]. Qed.

Lemma get_chars (s : string) (i : nat) : String.get i s = chars s !! i.
Proof.
  revert i. induction s as [|c s IH]; intros [|i]; simpl; try reflexivity.
  apply IH.
Qed.

Lemma get_substring (s : string) (i : nat) (c : ascii) :
  String.get i s = Some c -> substring i 1 s = String c "".
Proof.
  revert i. induction s as [|a s IH]; intros [|i]; simpl; try discriminate.
  - intros [= ->]. by destruct s.
  - apply IH.
Qed.

(** [charAt] at an index in range is a single character of the string. *)
Lemma charAt_in_range (s : string) (i : Z) :
  0 <= i < Z.of_nat (String.length s) ->
  exists c : ascii, charAt s i = String c "" /\ c ∈ chars s.
Proof.
  intros Hi. unfold charAt.
  destruct (Z.ltb_spec i 0) as [?|_]; [lia|].
  rewrite get_chars.
  destruct (lookup_lt_is_Some_2 (chars s) (Z.to_nat i)) as [c Hc].
  { rewrite length_chars. lia. }
  rewrite Hc. exists c. split; [reflexivity|].
  by apply list_elem_of_lookup_2 in Hc.
Qed.

(** [includes] finds every character the string holds. *)
Lemma includes_char (s : string) (c : ascii) :
  c ∈ chars s -> includes s (String c "") = true.
Proof.
  intros Hc. apply list_elem_of_lookup_1 in Hc as [i Hi].
  rewrite <- get_chars in Hi. apply get_substring in Hi.
  unfold includes.
  destruct (index 0 (String c "") s) as [m|] eqn:Hindex; [reflexivity|].
  exfalso.
  apply (index_correct3 0 i (String c "") s Hindex); [discriminate | lia | exact Hi].
Qed.

(** ** Character classes *)

Lemma class_matches_iff (cls : char_class) (c : ascii) :
  class_matches cls c = true <-> c ∈ cls.
Proof.
  unfold class_matches. rewrite existsb_exists. split.
  - intros (x & Hin & Heq). apply Ascii.eqb_eq in Heq. subst x.
    by apply list_elem_of_In.
  - intros Hin. exists c. split; [by apply list_elem_of_In | apply Ascii.eqb_refl].
Qed.

Lemma class_matches_false (cls : char_class) (c : ascii) :
  class_matches cls c = false <-> c ∉ cls.
Proof.
  rewrite <- class_matches_iff. destruct (class_matches cls c); split;
    intros H; try reflexivity; try discriminate; congruence.
Qed.

(** Replacing every match of a class by the empty string keeps exactly the
    characters outside the class, in their order. *)
Lemma chars_replace_class_global (cls : char_class) (s : string) :
  chars (replace_class_global cls s) = filter (fun c => c ∉ cls) (chars s).
Proof.
  induction s as [|c s IH]; [reflexivity|].
  cbn [replace_class_global]. rewrite chars_cons.
  destruct (class_matches cls c) eqn:Hc.
  - apply class_matches_iff in Hc.
    rewrite filter_cons_False; [exact IH | by intros ?].
  - apply class_matches_false in Hc.
    rewrite filter_cons_True by exact Hc.
    by rewrite chars_cons, IH.
Qed.

Lemma test_class_false (cls : char_class) (s : string) :
  test_class cls s = false <-> Forall (fun c => c ∉ cls) (chars s).
Proof.
  induction s as [|c s IH]; cbn [test_class].
  - split; [constructor | reflexivity].
  - rewrite chars_cons, orb_false_iff, Forall_cons, class_matches_false, IH.
    reflexivity.
Qed.

Lemma append_cons (c : ascii) (s1 s2 : string) :
  String c s1 +:+ s2 = String c (s1 +:+ s2).
Proof. reflexivity. Qed.

Lemma append_empty_r (s : string) : s +:+ "" = s.
Proof.
  induction s as [|c s IH]; [reflexivity | by rewrite append_cons, IH].
Qed.

Lemma append_associative (s1 s2 s3 : string) :
  (s1 +:+ s2) +:+ s3 = s1 +:+ (s2 +:+ s3).
Proof.
  induction s1 as [|c s1 IH]; [reflexivity | by rewrite !append_cons, IH].
Qed.

(** ** The generation loop *)

Section Loop.
Variables (source : random_source) (charset : string) (maxAttempts : Z).

Lemma loop_body_exhausted (s : loop_state) (k : nat) :
  maxAttempts < attempts s + 1 ->
  loop_body source charset maxAttempts s k = (Throw MaxAttempts, k).
Proof.
  intros H. unfold loop_body.
  destruct (Z.ltb_spec maxAttempts (attempts s + 1)); [reflexivity | lia].
Qed.

Lemma loop_body_raised (s : loop_state) (k : nat) (message : string) :
  attempts s + 1 <= maxAttempts ->
  source k = Raised message ->
  loop_body source charset maxAttempts s k
    = (Throw (RandomNumberFailed message), S k).
Proof.
  intros H Hk. unfold loop_body.
  destruct (Z.ltb_spec maxAttempts (attempts s + 1)); [lia|].
  unfold bind, getRandomValues. rewrite Hk. reflexivity.
Qed.

(** Whatever the outcome of an iteration, it is not a retry: the body
    either throws or adds one to [attempts]. *)
Lemma loop_body_attempts (s s' : loop_state) (k k' : nat) :
  loop_body source charset maxAttempts s k = (Normal s', k') ->
  attempts s' = attempts s + 1 /\ k' = S k.
Proof.
  unfold loop_body.
  destruct (maxAttempts <? attempts s + 1); [discriminate|].
  unfold bind, getRandomValues.
  destruct (source k); [|discriminate].
  intros [= <- <-]. split; reflexivity.
Qed.

Lemma for_loop_attempts (n : nat) (s s' : loop_state) (k k' : nat) :
  for_loop n (loop_body source charset maxAttempts) s k = (Normal s', k') ->
  attempts s' = attempts s + Z.of_nat n /\ k' = (k + n)%nat.
Proof.
  revert s k. induction n as [|n IH]; intros s k; cbn [for_loop].
  - intros [= <- <-]. split; lia.
  - unfold bind at 1.
    destruct (loop_body source charset maxAttempts s k) as [[s1|e] k1] eqn:Hbody;
      [|discriminate].
    intros Hrest. apply loop_body_attempts in Hbody as [Ha ->].
    apply IH in Hrest as [-> ->]. split; lia.
Qed.

(** The only errors the loop throws. *)
Lemma for_loop_throws (n : nat) (s : loop_state) (k k' : nat) (e : error) :
  for_loop n (loop_body source charset maxAttempts) s k = (Throw e, k') ->
  (e = MaxAttempts /\ maxAttempts < attempts s + Z.of_nat n)
  \/ exists message, e = RandomNumberFailed message.
Proof.
  revert s k. induction n as [|n IH]; intros s k; cbn [for_loop].
  - discriminate.
  - unfold bind at 1.
    destruct (loop_body source charset maxAttempts s k) as [[s1|e1] k1] eqn:Hbody.
    + intros Hrest. apply loop_body_attempts in Hbody as [Ha ->].
      apply IH in Hrest as [[-> Hlt]|Hraised]; [left; split; [reflexivity|lia] | by right].
    + intros [= <- <-]. revert Hbody. unfold loop_body.
      destruct (Z.ltb_spec maxAttempts (attempts s + 1)).
      * intros [= <- <-]. left. split; [reflexivity | lia].
      * unfold bind, getRandomValues.
        destruct (source k); [discriminate|].
        intros [= <- <-]. right. by eexists.
Qed.

Hypothesis charset_nonempty : 0 < Z.of_nat (String.length charset).

Lemma loop_body_filled (s : loop_state) (k : nat) (word : Z) :
  attempts s + 1 <= maxAttempts ->
  source k = Filled word ->
  exists c : ascii,
    c ∈ chars charset /\
    loop_body source charset maxAttempts s k
      = (Normal {| password := password s +:+ String c "";
                   attempts := attempts s + 1 |}, S k).
Proof.
  intros H Hk.
  destruct (charAt_in_range charset
              (Uint32 word mod Z.of_nat (String.length charset)))
    as (c & Hat & Hin).
  { apply Z.mod_pos_bound. exact charset_nonempty. }
  exists c. split; [exact Hin|].
  unfold loop_body.
  destruct (Z.ltb_spec maxAttempts (attempts s + 1)); [lia|].
  unfold bind, getRandomValues. rewrite Hk, Hat. reflexivity.
Qed.

(** Within the budget the loop is determined by the first draw that
    raises: it aborts there, after exactly that many draws and one more;
    if none of its [n] draws raises it appends [n] characters of the
    charset. *)
Lemma for_loop_within_budget (n : nat) (s : loop_state) (k : nat) :
  attempts s + Z.of_nat n <= maxAttempts ->
  match first_raised source k n with
  | Some (j, message) =>
      for_loop n (loop_body source charset maxAttempts) s k
        = (Throw (RandomNumberFailed message), S (k + j))
  | None =>
      exists pw : string,
        for_loop n (loop_body source charset maxAttempts) s k
          = (Normal {| password := password s +:+ pw;
                       attempts := attempts s + Z.of_nat n |}, (k + n)%nat)
        /\ String.length pw = n
        /\ Forall (fun c => c ∈ chars charset) (chars pw)
  end.
Proof.
  revert s k. induction n as [|n IH]; intros s k Hbudget;
    cbn [for_loop first_raised].
  - exists "". rewrite append_empty_r, Z.add_0_r, Nat.add_0_r.
    destruct s. repeat split. constructor.
  - unfold bind. destruct (source k) as [word|message] eqn:Hk.
    + destruct (loop_body_filled s k word) as (c & Hc & ->); [lia | exact Hk |].
      cbv beta iota.
      specialize (IH {| password := password s +:+ String c "";
                        attempts := attempts s + 1 |} (S k)).
      cbn [password attempts] in IH.
      destruct (first_raised source (S k) n) as [[j message]|].
      * etrans; [apply IH; lia | do 2 f_equal; lia].
      * destruct IH as (pw & Hloop & Hlen & Hall); [lia|].
        exists (String c pw). split; [|split].
        -- etrans; [apply Hloop|]. rewrite append_associative.
           change (String c "" +:+ pw) with (String c pw).
           replace (attempts s + Z.of_nat (S n))
             with (attempts s + 1 + Z.of_nat n) by lia.
           replace (k + S n)%nat with (S k + n)%nat by lia.
           reflexivity.
        -- cbn [String.length]. by rewrite Hlen.
        -- rewrite chars_cons. by constructor.
    + rewrite (loop_body_raised s k message) by (lia || exact Hk).
      by rewrite Nat.add_0_r.
Qed.

End Loop.

(** ** Character sets *)

Lemma confusingChars_exclusion_set : confusingChars = exclusion_set.
Proof. reflexivity. Qed.

(** Every charset the generator can build passes both of its size checks. *)
Lemma build_charset_size (symbols readable : bool) :
  10 <= Z.of_nat (String.length (build_charset symbols readable)).
Proof. destruct symbols, readable; vm_compute; discriminate. Qed.

Lemma build_charset_readable (symbols : bool) :
  chars (build_charset symbols true)
  = filter (fun c => c ∉ exclusion_set) (chars (build_charset symbols false)).
Proof.
  unfold build_charset. rewrite chars_replace_class_global.
  by rewrite confusingChars_exclusion_set.
Qed.

Lemma readable_charset_excludes (symbols : bool) (c : ascii) :
  c ∈ chars (build_charset symbols true) -> c ∉ exclusion_set.
Proof.
  rewrite build_charset_readable, list_elem_of_filter. by intros [? _].
Qed.

(** ** Validation *)

(** The three guards on types, as the specification words them. *)
Lemma options_guard (v : value) :
  is_null v || negb (String.eqb (typeof v) "object") = negb (is_record v).
Proof. destruct v; reflexivity. Qed.

Lemma length_guard (v : value) :
  negb (String.eqb (typeof v) "number") || negb (Number_isInteger v)
  = negb (is_integer v).
Proof. rewrite is_integer_isInteger. destruct v; reflexivity. Qed.

Lemma boolean_guard (v : value) :
  negb (String.eqb (typeof v) "boolean") = negb (is_boolean v).
Proof. destruct v; reflexivity. Qed.

(** A failing check aborts the call with that check's error, and the
    count of draws is the one the call started from. *)
Lemma generatePassword_validation_failure
    (crypto : crypto_global) (options : value) (k : nat) (e : error) :
  first_failure (validation_checks crypto options) = Some e ->
  generatePassword crypto options k = (Throw e, k).
Proof.
  unfold validation_checks, generatePassword. cbn [first_failure].
  rewrite options_guard, length_guard, !boolean_guard.
  change (destructure (default_parameter options) "length" (int 12))
    with (length_of options).
  change (destructure (default_parameter options) "symbols" (VBoolean true))
    with (symbols_of options).
  change (destructure (default_parameter options) "readable" (VBoolean false))
    with (readable_of options).
  rewrite (Z.leb_antisym _ 1), (Z.leb_antisym 1000 _).
  destruct (is_record (default_parameter options)); cbn [negb];
    [|by intros [= <-]].
  destruct (is_integer (length_of options)); cbn [negb]; [|by intros [= <-]].
  destruct (integer_value (length_of options) <? 1); cbn [negb];
    [by intros [= <-]|].
  destruct (1000 <? integer_value (length_of options)); cbn [negb];
    [by intros [= <-]|].
  destruct (is_boolean (symbols_of options)); cbn [negb]; [|by intros [= <-]].
  destruct (is_boolean (readable_of options)); cbn [negb]; [|by intros [= <-]].
  destruct crypto as [|[source|]]; cbn [source_available];
    [by intros [= <-] | discriminate | by intros [= <-]].
Qed.

(** When no check fails the call has an object, a source, an integer
    length in range and two booleans. *)
Lemma validation_passed (crypto : crypto_global) (options : value) :
  first_failure (validation_checks crypto options) = None ->
  exists (fields : gmap string value) (source : random_source)
         (n : Z) (s r : bool),
    default_parameter options = VObject fields /\
    crypto = CryptoObject (Some source) /\
    length_of options = int n /\ 1 <= n <= 1000 /\
    symbols_of options = VBoolean s /\
    readable_of options = VBoolean r.
Proof.
  unfold validation_checks. cbn [first_failure].
  destruct (is_record (default_parameter options)) eqn:Hrecord; [|discriminate].
  destruct (is_integer (length_of options)) eqn:Hinteger; [|discriminate].
  destruct (Z.leb_spec 1 (integer_value (length_of options))); [|discriminate].
  destruct (Z.leb_spec (integer_value (length_of options)) 1000); [|discriminate].
  destruct (is_boolean (symbols_of options)) eqn:Hsymbols; [|discriminate].
  destruct (is_boolean (readable_of options)) eqn:Hreadable; [|discriminate].
  destruct (source_available crypto) eqn:Hsource; [|discriminate].
  intros _.
  destruct (default_parameter options) as [| | | | | |fields]; try discriminate.
  destruct crypto as [|[source|]]; try discriminate.
  destruct (symbols_of options) as [| |s| | | |]; try discriminate.
  destruct (readable_of options) as [| |r| | | |]; try discriminate.
  rewrite is_integer_isInteger in Hinteger. apply isInteger_int in Hinteger.
  exists fields, source, (integer_value (length_of options)), s, r.
  repeat split; try reflexivity; assumption.
Qed.

(** ** Generation *)

(** Once validation has passed, the call is determined by the first of its
    [length] draws that raises: it aborts there with that draw's message;
    when none raises it returns [length] characters of the charset. *)
Lemma generatePassword_validated
    (fields : gmap string value) (source : random_source) (n : Z)
    (s r : bool) (options : value) (k : nat) :
  default_parameter options = VObject fields ->
  length_of options = int n -> 1 <= n <= 1000 ->
  symbols_of options = VBoolean s ->
  readable_of options = VBoolean r ->
  match first_raised source k (Z.to_nat n) with
  | Some (j, message) =>
      generatePassword (CryptoObject (Some source)) options k
        = (Throw (RandomNumberFailed message), S (k + j))
  | None =>
      exists pw : string,
        generatePassword (CryptoObject (Some source)) options k
          = (Normal pw, (k + Z.to_nat n)%nat)
        /\ Z.of_nat (String.length pw) = n
        /\ Forall (fun c => c ∈ chars (build_charset s r)) (chars pw)
        /\ (r = true -> Forall (fun c => c ∉ exclusion_set) (chars pw))
  end.
Proof.
  intros Hrecord Hlength Hrange Hsymbols Hreadable.
  assert (Hgen : generatePassword (CryptoObject (Some source)) options k
    = (let* st := for_loop (Z.to_nat n)
                   (loop_body source (build_charset s r) (n * 10))
                   {| password := ""; attempts := 0 |} in
       if negb (Z.of_nat (String.length (password st)) =? n)
       then throw (LengthMismatch (Z.of_nat (String.length (password st))) n)
       else
       if negb (forallb (fun char => includes (build_charset s r) (String char ""))
                  (list_ascii_of_string (password st)))
       then throw InvalidCharacters else
       if r && test_class confusingChars (password st)
       then throw ConfusingCharacters else
       ret (password st)) k).
  { unfold generatePassword.
    rewrite options_guard, length_guard, !boolean_guard.
    change (destructure (default_parameter options) "length" (int 12))
      with (length_of options).
    change (destructure (default_parameter options) "symbols" (VBoolean true))
      with (symbols_of options).
    change (destructure (default_parameter options) "readable" (VBoolean false))
      with (readable_of options).
    rewrite Hrecord, Hlength, Hsymbols, Hreadable.
    rewrite is_integer_isInteger, int_isInteger, integer_value_int.
    cbn [is_record is_boolean negb ToBoolean].
    destruct (Z.ltb_spec n 1); [lia|].
    destruct (Z.ltb_spec 1000 n); [lia|].
    pose proof (build_charset_size s r) as Hsize.
    destruct (Z.eqb_spec (Z.of_nat (String.length (build_charset s r))) 0); [lia|].
    destruct (Z.ltb_spec (Z.of_nat (String.length (build_charset s r))) 10); [lia|].
    reflexivity. }
  rewrite Hgen. clear Hgen. unfold bind.
  pose proof (for_loop_within_budget source (build_charset s r) (n * 10)) as Hloop.
  specialize (Hloop ltac:(pose proof (build_charset_size s r); lia)
                (Z.to_nat n) {| password := ""; attempts := 0 |} k).
  cbn [password attempts] in Hloop.
  destruct (first_raised source k (Z.to_nat n)) as [[j message]|].
  - rewrite Hloop by lia. reflexivity.
  - destruct Hloop as (pw & -> & Hlen & Hall); [lia|].
    cbn [password]. change ("" +:+ pw) with pw.
    assert (Hno : r = true -> Forall (fun c => c ∉ exclusion_set) (chars pw)).
    { intros ->. eapply Forall_impl; [exact Hall|].
      intros c. apply readable_charset_excludes. }
    exists pw. split; [|split; [lia | split; assumption]].
    destruct (Z.eqb_spec (Z.of_nat (String.length pw)) n); [|lia].
    cbn [negb].
    assert (Hincl : forallb (fun char => includes (build_charset s r) (String char ""))
                      (list_ascii_of_string pw) = true).
    { apply forallb_forall. intros c Hc. apply includes_char.
      rewrite Forall_forall in Hall. apply Hall. by apply list_elem_of_In. }
    rewrite Hincl. cbn [negb].
    destruct r; cbn [andb]; [|reflexivity].
    rewrite confusingChars_exclusion_set.
    rewrite (proj2 (test_class_false exclusion_set pw) (Hno eq_refl)).
    reflexivity.
Qed.

(** A draw that raises while every earlier one filled is the first raised. *)
Lemma first_raised_at (source : random_source) (n k j : nat) (message : string) :
  (j < n)%nat ->
  (forall i : nat, (i < j)%nat -> exists word, source (k + i)%nat = Filled word) ->
  source (k + j)%nat = Raised message ->
  first_raised source k n = Some (j, message).
Proof.
  revert k j. induction n as [|n IH]; intros k j Hj Hfilled Hraised; [lia|].
  cbn [first_raised]. destruct j as [|j].
  - rewrite Nat.add_0_r in Hraised. by rewrite Hraised.
  - destruct (Hfilled O) as [word Hword]; [lia|].
    rewrite Nat.add_0_r in Hword. rewrite Hword.
    rewrite (IH (S k) j); [reflexivity | lia | |].
    + intros i Hi. destruct (Hfilled (S i)) as [w Hw]; [lia|].
      exists w. by replace (S k + i)%nat with (k + S i)%nat by lia.
    + by replace (S k + j)%nat with (k + S j)%nat by lia.
Qed.

Lemma first_raised_bound (source : random_source) (n k j : nat) (message : string) :
  first_raised source k n = Some (j, message) -> (j < n)%nat.
Proof.
  revert k j message. induction n as [|n IH]; intros k j message;
    cbn [first_raised]; [discriminate|].
  destruct (source k); [|intros [= <- _]; lia].
  destruct (first_raised source (S k) n) as [[j' m']|] eqn:Hrest; [|discriminate].
  intros [= <- _]. apply IH in Hrest. lia.
Qed.

(** Whatever a successful call returns has the requested length and is
    made of characters of the charset of its options. *)
Lemma generatePassword_success
    (crypto : crypto_global) (options : value) (k k' : nat) (pw : string) :
  generatePassword crypto options k = (Normal pw, k') ->
  exists (n : Z) (s r : bool),
    length_of options = int n /\ 1 <= n <= 1000 /\
    symbols_of options = VBoolean s /\ readable_of options = VBoolean r /\
    Z.of_nat (String.length pw) = n /\ k' = (k + Z.to_nat n)%nat /\
    Forall (fun c => c ∈ chars (build_charset s r)) (chars pw) /\
    (r = true -> Forall (fun c => c ∉ exclusion_set) (chars pw)).
Proof.
  intros Hcall.
  destruct (first_failure (validation_checks crypto options)) as [e|] eqn:Hchecks.
  { rewrite (generatePassword_validation_failure _ _ k e Hchecks) in Hcall.
    discriminate. }
  apply validation_passed in Hchecks
    as (fields & source & n & s & r & Hrecord & -> & Hlength & Hrange & Hs & Hr).
  pose proof (generatePassword_validated fields source n s r options k
                Hrecord Hlength Hrange Hs Hr) as Hgen.
  destruct (first_raised source k (Z.to_nat n)) as [[j message]|].
  { rewrite Hgen in Hcall. discriminate. }
  destruct Hgen as (pw' & Heq & Hlen & Hall & Hno).
  rewrite Heq in Hcall. injection Hcall as <- <-.
  exists n, s, r. repeat split; try assumption; lia.
Qed.

(** Whatever a call throws after validation is the failure of a draw. *)
Lemma generatePassword_failure
    (crypto : crypto_global) (options : value) (k k' : nat) (e : error) :
  first_failure (validation_checks crypto options) = None ->
  generatePassword crypto options k = (Throw e, k') ->
  exists message : string, e = RandomNumberFailed message /\ (k < k')%nat.
Proof.
  intros Hchecks Hcall.
  apply validation_passed in Hchecks
    as (fields & source & n & s & r & Hrecord & -> & Hlength & Hrange & Hs & Hr).
  pose proof (generatePassword_validated fields source n s r options k
                Hrecord Hlength Hrange Hs Hr) as Hgen.
  destruct (first_raised source k (Z.to_nat n)) as [[j message]|].
  - rewrite Hgen in Hcall. injection Hcall as <- <-.
    exists message. split; [reflexivity | lia].
  - destruct Hgen as (pw' & Heq & _). rewrite Heq in Hcall. discriminate.
Qed.

(** ** Options objects *)

Lemma property_options_object (length symbols readable : option value) :
  property (options_object length symbols readable) "length"
    = default VUndefined length /\
  property (options_object length symbols readable) "symbols"
    = default VUndefined symbols /\
  property (options_object length symbols readable) "readable"
    = default VUndefined readable.
Proof.
  unfold property, options_object, field.
  destruct length, symbols, readable; by simplify_map_eq.
Qed.

Lemma length_of_options_object (n : Z) (symbols readable : option value) :
  length_of (options_object (Some (int n)) symbols readable) = int n.
Proof.
  unfold length_of, destructure. cbn [default_parameter options_object].
  destruct (property_options_object (Some (int n)) symbols readable) as [-> _].
  reflexivity.
Qed.


(** ** The generator at work *)

Example generate_sixteen :
  generatePassword (CryptoObject (Some counting_source))
    (options_object (Some (int 16)) None None) 0%nat
  = (Normal "dkryFMT07%+?elsz", 16%nat).
Proof. vm_compute. reflexivity. Qed.

Example generate_defaults :
  generatePassword (CryptoObject (Some counting_source)) VUndefined 0%nat
  = (Normal "dkryFMT07%+?", 12%nat).
Proof. vm_compute. reflexivity. Qed.

Example generate_letters_and_digits :
  generatePassword (CryptoObject (Some counting_source))
    (options_object (Some (int 12)) (Some (VBoolean false)) None) 0%nat
  = (Normal "dkryFMT07els", 12%nat).
Proof. vm_compute. reflexivity. Qed.

Example generate_null_options :
  generatePassword (CryptoObject (Some counting_source)) VNull 0%nat
  = (Throw OptionsNotObject, 0%nat).
Proof. reflexivity. Qed.

Example generate_without_crypto :
  generatePassword (CryptoObject None) VUndefined 0%nat
  = (Throw CryptoUnavailable, 0%nat).
Proof. vm_compute. reflexivity. Qed.

Example generate_third_draw_raises :
  generatePassword
    (CryptoObject
       (Some (fun k => if (k =? 2)%nat then Raised "entropy" else Filled 5)))
    (options_object (Some (int 5)) None None) 0%nat
  = (Throw (RandomNumberFailed "entropy"), 3%nat).
Proof. vm_compute. reflexivity. Qed.

(** * The claims *)

(** ** Draw failures and the attempts budget *)

(** C1 (as stated, refuted). With a source whose first draw raises and
    [{length: 5}], validation passes and one draw has been made, well
    within the budget of 50, yet the call is aborted with the draw's
    failure, not retried: the retry policy of the claim does not hold. *)
Lemma draw_failure_not_retried :
  generatePassword (CryptoObject (Some failing_source))
      (options_object (Some (int 5)) None None) 0%nat
    = (Throw (RandomNumberFailed "boom"), 1%nat)
  /\ ~ draw_failures_are_retried.
Proof.
  assert (Hcall : generatePassword (CryptoObject (Some failing_source))
                    (options_object (Some (int 5)) None None) 0%nat
                  = (Throw (RandomNumberFailed "boom"), 1%nat))
    by (vm_compute; reflexivity).
  split; [exact Hcall|].
  intros Hclaim.
  specialize (Hclaim failing_source (options_object (Some (int 5)) None None)
                0%nat 1%nat (RandomNumberFailed "boom")).
  discriminate Hclaim; [vm_compute; reflexivity | exact Hcall].
Qed.

(** C1 (amended). Once validation has passed, a draw that raises is not
    retried: if the draw for position [j] raises and the draws for the
    positions before it filled, the call fails at once with the
    RandomSourceFailure error carrying that draw's message, after exactly
    [j + 1] draws, one per position, which is at most [length]. *)
Theorem draw_failure_aborts
    (source : random_source) (options : value) (k j : nat) (message : string) :
  first_failure (validation_checks (CryptoObject (Some source)) options)
    = None ->
  Z.of_nat j < integer_value (length_of options) ->
  (forall i : nat, (i < j)%nat ->
     exists word, source (k + i)%nat = Filled word) ->
  source (k + j)%nat = Raised message ->
  generatePassword (CryptoObject (Some source)) options k
    = (Throw (RandomNumberFailed message), S (k + j))
  /\ kind (RandomNumberFailed message) = RandomSourceFailure
  /\ Z.of_nat (S j) <= integer_value (length_of options).
Proof.
  intros Hchecks Hj Hfilled Hraised.
  apply validation_passed in Hchecks
    as (fields & source' & n & s & r & Hrecord & [= <-] & Hlength & Hrange & Hs & Hr).
  rewrite Hlength, integer_value_int in Hj |- *.
  pose proof (generatePassword_validated fields source n s r options k
                Hrecord Hlength Hrange Hs Hr) as Hgen.
  rewrite (first_raised_at source (Z.to_nat n) k j message) in Hgen;
    [|lia | exact Hfilled | exact Hraised].
  split; [exact Hgen|]. split; [reflexivity | lia].
Qed.

Lemma draw_failure_aborts_witness :
  generatePassword (CryptoObject (Some failing_source))
      (options_object (Some (int 5)) None None) 3%nat
    = (Throw (RandomNumberFailed "boom"), 4%nat)
  /\ kind (RandomNumberFailed "boom") = RandomSourceFailure
  /\ Z.of_nat 1 <= integer_value
                     (length_of (options_object (Some (int 5)) None None)).
Proof.
  apply (draw_failure_aborts failing_source
           (options_object (Some (int 5)) None None) 3%nat 0%nat "boom").
  - vm_compute. reflexivity.
  - vm_compute. reflexivity.
  - intros i Hi. lia.
  - reflexivity.
Defined.

(** C9. The attempts counter grows by exactly one per position the loop
    completes, so it never exceeds [length], and the error of the
    exhausted budget ('Failed to generate password after maximum
    attempts') is raised by no call, whatever the options, the
    environment and the draws. *)
Theorem exhaustion_unreachable :
  (forall (source : random_source) (charset : string) (maxAttempts : Z)
          (n : nat) (s s' : loop_state) (k k' : nat),
     for_loop n (loop_body source charset maxAttempts) s k = (Normal s', k') ->
     attempts s' = attempts s + Z.of_nat n) /\
  (forall (crypto : crypto_global) (options : value) (k k' : nat) (e : error),
     generatePassword crypto options k = (Throw e, k') ->
     e <> MaxAttempts /\ kind e <> GenerationExhausted).
Proof.
  split.
  - intros source charset maxAttempts n s s' k k' Hloop.
    by apply for_loop_attempts in Hloop as [-> _].
  - intros crypto options k k' e Hcall.
    destruct (first_failure (validation_checks crypto options)) as [e'|] eqn:Hchecks.
    + rewrite (generatePassword_validation_failure _ _ k e' Hchecks) in Hcall.
      injection Hcall as <- <-.
      revert Hchecks. unfold validation_checks. cbn [first_failure].
      repeat match goal with
             | |- (if ?b then _ else _) = Some _ -> _ => destruct b
             end; intros [= <-]; split; discriminate.
    + destruct (generatePassword_failure _ _ _ _ _ Hchecks Hcall) as (m & -> & _).
      split; discriminate.
Qed.

Lemma exhaustion_unreachable_witness :
  RandomNumberFailed "boom" <> MaxAttempts
  /\ kind (RandomNumberFailed "boom") <> GenerationExhausted.
Proof.
  apply (proj2 exhaustion_unreachable (CryptoObject (Some failing_source))
           (options_object (Some (int 5)) None None) 0%nat 1%nat).
  vm_compute. reflexivity.
Defined.

(** ** The returned password *)

(** C3. For every integer length with 1 <= length <= 1000, whatever the
    symbols and readable options, a call that returns a password returns
    one whose length is exactly the requested length. *)
Theorem length_property
    (crypto : crypto_global) (options : value) (n : Z) (k k' : nat)
    (pw : string) :
  1 <= n <= 1000 ->
  length_of options = int n ->
  generatePassword crypto options k = (Normal pw, k') ->
  Z.of_nat (String.length pw) = n.
Proof.
  intros _ Hlength Hcall.
  apply generatePassword_success in Hcall
    as (n' & s & r & Hlength' & _ & _ & _ & Hlen & _).
  rewrite Hlength in Hlength'.
  apply (f_equal integer_value) in Hlength'.
  rewrite !integer_value_int in Hlength'. lia.
Qed.

Lemma length_property_witness :
  1 <= 16 <= 1000 /\ Z.of_nat (String.length "dkryFMT07%+?elsz") = 16.
Proof.
  split; [lia|].
  apply (length_property (CryptoObject (Some counting_source))
           (options_object (Some (int 16)) None None) 16 0%nat 16%nat).
  - lia.
  - vm_compute. reflexivity.
  - vm_compute. reflexivity.
Defined.

(** Calls do succeed: when validation passes and none of the [length]
    draws raises, the call returns a password and has made exactly
    [length] draws. *)
Lemma generation_succeeds
    (source : random_source) (options : value) (k : nat) :
  first_failure (validation_checks (CryptoObject (Some source)) options)
    = None ->
  first_raised source k (Z.to_nat (integer_value (length_of options))) = None ->
  exists pw : string,
    generatePassword (CryptoObject (Some source)) options k
      = (Normal pw, (k + Z.to_nat (integer_value (length_of options)))%nat).
Proof.
  intros Hchecks Hnone.
  apply validation_passed in Hchecks
    as (fields & source' & n & s & r & Hrecord & [= <-] & Hlength & Hrange & Hs & Hr).
  rewrite Hlength, integer_value_int in Hnone |- *.
  pose proof (generatePassword_validated fields source n s r options k
                Hrecord Hlength Hrange Hs Hr) as Hgen.
  rewrite Hnone in Hgen. destruct Hgen as (pw & Heq & _). by exists pw.
Qed.

(** C5. Every character of a returned password belongs to the charset
    built for the call's own symbols and readable options, and when
    readable is true none of them is in the exclusion set
    {O, 0, I, l, 1, |}. *)
Theorem output_characters
    (crypto : crypto_global) (options : value) (k k' : nat) (pw : string) :
  generatePassword crypto options k = (Normal pw, k') ->
  exists s r : bool,
    symbols_of options = VBoolean s /\
    readable_of options = VBoolean r /\
    Forall (fun c => c ∈ chars (build_charset s r)) (chars pw) /\
    (r = true -> Forall (fun c => c ∉ exclusion_set) (chars pw)).
Proof.
  intros Hcall.
  apply generatePassword_success in Hcall
    as (n & s & r & _ & _ & Hs & Hr & _ & _ & Hall & Hno).
  by exists s, r.
Qed.

Lemma output_characters_witness :
  exists s r : bool,
    symbols_of (options_object (Some (int 30)) None (Some (VBoolean true)))
      = VBoolean s /\
    readable_of (options_object (Some (int 30)) None (Some (VBoolean true)))
      = VBoolean r /\
    Forall (fun c => c ∈ chars (build_charset s r))
      (chars "PW5#)<cjryFNV4@(]biqxEMU3!*[ah") /\
    (r = true ->
     Forall (fun c => c ∉ exclusion_set)
       (chars "PW5#)<cjryFNV4@(]biqxEMU3!*[ah")).
Proof.
  apply (output_characters (CryptoObject (Some counting_source))
           (options_object (Some (int 30)) None (Some (VBoolean true)))
           5%nat 35%nat).
  vm_compute. reflexivity.
Defined.

(** ** Character sets *)

(** C2 (as stated, refuted). The symbol string holds 21 characters, not
    18, and the charset with symbols (readable off) holds 83, not 80. *)
Lemma symbol_count_not_eighteen :
  String.length syms = 21%nat /\
  String.length (build_charset true false) = 83%nat /\
  ~ eighteen_symbols.
Proof.
  split; [reflexivity|]. split; [reflexivity|].
  intros [Hsyms _]. vm_compute in Hsyms. discriminate.
Qed.

(** C2 (amended). With symbols enabled the generator appends to the base
    charset the fixed symbol set ! @ # $ % ^ & * ( ) _ + { } [ ] < > ? , .
    in that order: 21 characters without duplicates, so the charset with
    symbols enabled and readable disabled has 62 + 21 = 83 characters. *)
Theorem symbol_set :
  chars syms = listed_symbols /\
  length listed_symbols = 21%nat /\
  NoDup listed_symbols /\
  build_charset true false = build_charset false false +:+ syms /\
  String.length (build_charset false false) = 62%nat /\
  String.length (build_charset true false) = (62 + 21)%nat.
Proof.
  repeat split; try reflexivity.
  apply (bool_decide_unpack _). vm_compute. reflexivity.
Qed.

(** C6. The base charset is the 62 characters a-z, A-Z, 0-9 in that
    order, and readable mode removes from the constructed charset every
    occurrence of O, 0, I, l, 1, | and nothing else, the remaining
    characters keeping their order. *)
Theorem charset_construction :
  chars (build_charset false false) = base_alphabet /\
  length base_alphabet = 62%nat /\
  (forall symbols : bool,
     chars (build_charset symbols false)
     = (base_alphabet ++ if symbols then chars syms else [])%list) /\
  (forall symbols : bool,
     chars (build_charset symbols true)
     = filter (fun c => c ∉ exclusion_set)
         (chars (build_charset symbols false))).
Proof.
  split; [reflexivity|]. split; [reflexivity|].
  split; [intros []; reflexivity|].
  apply build_charset_readable.
Qed.

(** C10. The character | is in no charset the generator builds, so
    readable mode removes exactly the five characters O, 0, I, l, 1: the
    readable charsets hold 57 characters without symbols and 83 - 5 = 78
    with symbols, each strictly more than the size the command-line front
    end computes by subtracting 6. *)
Theorem readable_charset_size :
  (forall symbols readable : bool,
     "|"%char ∉ chars (build_charset symbols readable)) /\
  (forall symbols : bool,
     chars (build_charset symbols true)
     = filter (fun c => c ∉ removed_characters)
         (chars (build_charset symbols false)) /\
     Forall (fun c => c ∈ chars (build_charset symbols false))
       removed_characters /\
     Z.of_nat (String.length (build_charset symbols true))
     = Z.of_nat (String.length (build_charset symbols false)) - 5 /\
     Cli.calculateCharsetSize
       {| Cli.symbols := symbols; Cli.readable := true |}
     = Cli.calculateCharsetSize
         {| Cli.symbols := symbols; Cli.readable := false |} - 6 /\
     Cli.calculateCharsetSize
       {| Cli.symbols := symbols; Cli.readable := true |}
     < Z.of_nat (String.length (build_charset symbols true))) /\
  String.length (build_charset false true) = 57%nat /\
  String.length (build_charset true false) = 83%nat /\
  String.length (build_charset true true) = (83 - 5)%nat /\
  Cli.calculateCharsetSize {| Cli.symbols := false; Cli.readable := true |}
    = 56 /\
  Cli.calculateCharsetSize {| Cli.symbols := true; Cli.readable := true |}
    = 74.
Proof.
  split.
  { intros symbols readable. apply (bool_decide_unpack _).
    destruct symbols, readable; vm_compute; reflexivity. }
  split; [|repeat split; reflexivity].
  intros symbols. split; [|split; [|split; [|split]]].
  - destruct symbols; vm_compute; reflexivity.
  - apply (bool_decide_unpack _). destruct symbols; vm_compute; reflexivity.
  - destruct symbols; vm_compute; reflexivity.
  - destruct symbols; reflexivity.
  - destruct symbols; vm_compute; reflexivity.
Qed.

(** ** Validation *)

(** C7. The checks run in the order: options is a structured record,
    length is an integer, length is at least 1, length is at most 1000,
    symbols is a boolean, readable is a boolean, the secure random source
    is available.  The first check that fails determines the error, and
    the call ends there without a single draw; when none fails, whatever
    the call throws is the error of none of the checks, and at least one
    draw has been made. *)
Theorem validation_order
    (crypto : crypto_global) (options : value) (k : nat) :
  match first_failure (validation_checks crypto options) with
  | Some e => generatePassword crypto options k = (Throw e, k)
  | None =>
      forall (e : error) (k' : nat),
        generatePassword crypto options k = (Throw e, k') ->
        (e ∉ map snd (validation_checks crypto options)) /\ (k < k')%nat
  end.
Proof.
  destruct (first_failure (validation_checks crypto options)) as [e|] eqn:Hchecks.
  - by apply generatePassword_validation_failure.
  - intros e k' Hcall.
    destruct (generatePassword_failure _ _ _ _ _ Hchecks Hcall) as (m & -> & Hk).
    split; [|exact Hk].
    unfold validation_checks. cbn [map snd].
    rewrite !not_elem_of_cons. repeat split; try discriminate.
    apply not_elem_of_nil.
Qed.

Lemma validation_order_witness :
  generatePassword (CryptoObject (Some counting_source))
      (options_object (Some (int 0)) (Some (VString "yes")) None) 7%nat
    = (Throw LengthTooSmall, 7%nat).
Proof.
  exact (validation_order (CryptoObject (Some counting_source))
           (options_object (Some (int 0)) (Some (VString "yes")) None) 7%nat).
Defined.


Lemma destructure_provided
    (fields : gmap string value) (key : string) (v d : value) :
  fields !! key = Some v -> v <> VUndefined ->
  destructure (VObject fields) key d = v.
Proof.
  intros Hlookup Hv. unfold destructure, property. rewrite Hlookup.
  cbn [default]. by destruct v.
Qed.

(** C8 (as stated, refuted). With [{length: 0, symbols: "yes"}] the
    symbols option is provided and is not a boolean, yet the call fails
    with 'Password length must be at least 1 character', an OutOfRange
    error: the range check on the length comes before the check on
    symbols. *)
Lemma non_boolean_after_range :
  generatePassword (CryptoObject (Some counting_source))
      (options_object (Some (int 0)) (Some (VString "yes")) None) 0%nat
    = (Throw LengthTooSmall, 0%nat)
  /\ kind LengthTooSmall = OutOfRange
  /\ ~ type_rejection_as_stated.
Proof.
  assert (Hcall : generatePassword (CryptoObject (Some counting_source))
                    (options_object (Some (int 0)) (Some (VString "yes")) None)
                    0%nat
                  = (Throw LengthTooSmall, 0%nat))
    by (vm_compute; reflexivity).
  split; [exact Hcall|]. split; [reflexivity|].
  intros Hclaim.
  destruct (Hclaim (CryptoObject (Some counting_source))
              (<["length" := int 0]> (<["symbols" := VString "yes"]> ∅))
              (VString "yes") 0%nat) as [_ Hboolean]; [discriminate|].
  destruct Hboolean as (e & k' & Hthrow & Hkind);
    [left; vm_compute; reflexivity | reflexivity |].
  change (VObject (<["length" := int 0]> (<["symbols" := VString "yes"]> ∅)))
    with (options_object (Some (int 0)) (Some (VString "yes")) None) in Hthrow.
  rewrite Hcall in Hthrow. injection Hthrow as <- _.
  discriminate Hkind.
Qed.

(** C8 (amended). A length that is provided and is not an integer (the
    string "12", the number 12.5, ...) is rejected with an InvalidArgument
    error,
    whatever else the call is given; symbols or readable provided and not
    a boolean is rejected with an InvalidArgument error too, unless the
    earlier range check rejects the length first (the error is then the
    one the validation order gives: of the length if it is not an integer,
    else of symbols if it is not a boolean, else of readable). *)
Theorem type_rejection
    (crypto : crypto_global) (options : value)
    (fields : gmap string value) (v : value) (k : nat) :
  default_parameter options = VObject fields ->
  v <> VUndefined ->
  (fields !! "length" = Some v ->
   is_integer v = false ->
   generatePassword crypto options k = (Throw LengthNotInteger, k)
   /\ kind LengthNotInteger = InvalidArgument) /\
  (fields !! "symbols" = Some v \/ fields !! "readable" = Some v ->
   is_boolean v = false ->
   (is_integer (length_of options) = true ->
    1 <= integer_value (length_of options) <= 1000) ->
   exists e : error,
     generatePassword crypto options k = (Throw e, k)
     /\ kind e = InvalidArgument
     /\ e = if is_integer (length_of options)
            then if is_boolean (symbols_of options)
                 then ReadableNotBoolean else SymbolsNotBoolean
            else LengthNotInteger).
Proof.
  intros Hrecord Hprovided.
  split.
  - intros Hlookup Hinteger. split; [|reflexivity].
    apply generatePassword_validation_failure.
    unfold validation_checks, length_of. cbn [first_failure].
    rewrite Hrecord, (destructure_provided fields "length" v) by assumption.
    cbn [is_record]. by rewrite Hinteger.
  - intros Hlookup Hboolean Hrange.
    assert (Hchecks : first_failure (validation_checks crypto options)
      = Some (if is_integer (length_of options)
              then if is_boolean (symbols_of options)
                   then ReadableNotBoolean else SymbolsNotBoolean
              else LengthNotInteger)).
    { unfold validation_checks. cbn [first_failure].
      rewrite Hrecord. cbn [is_record]. fold (default_parameter options).
      destruct (is_integer (length_of options)); [|reflexivity].
      destruct (Z.leb_spec 1 (integer_value (length_of options))); [|lia].
      destruct (Z.leb_spec (integer_value (length_of options)) 1000); [|lia].
      destruct (is_boolean (symbols_of options)) eqn:Hsymbols; [|reflexivity].
      destruct Hlookup as [Hlookup|Hlookup].
      - unfold symbols_of in Hsymbols.
        rewrite Hrecord, (destructure_provided fields "symbols" v)
          in Hsymbols by assumption.
        congruence.
      - unfold readable_of.
        rewrite Hrecord, (destructure_provided fields "readable" v)
          by assumption.
        by rewrite Hboolean. }
    eexists. split; [by apply generatePassword_validation_failure|].
    split; [|reflexivity].
    destruct (is_integer (length_of options)); [|reflexivity].
    destruct (is_boolean (symbols_of options)); reflexivity.
Qed.

Lemma type_rejection_witness :
  (generatePassword CryptoUndefined
       (options_object (Some (VString "12")) None None) 0%nat
     = (Throw LengthNotInteger, 0%nat)
   /\ kind LengthNotInteger = InvalidArgument) /\
  (generatePassword CryptoUndefined
       (options_object (Some (VNumber (Finite (Q2Qc (25 # 2))))) None None)
       0%nat
     = (Throw LengthNotInteger, 0%nat)
   /\ kind LengthNotInteger = InvalidArgument) /\
  (exists e : error,
     generatePassword CryptoUndefined
         (options_object None (Some (VString "yes")) None) 0%nat
       = (Throw e, 0%nat)
     /\ kind e = InvalidArgument /\ e = SymbolsNotBoolean) /\
  (exists e : error,
     generatePassword CryptoUndefined
         (options_object (Some (int 8)) (Some (VBoolean false)) (Some (int 1)))
         0%nat
       = (Throw e, 0%nat)
     /\ kind e = InvalidArgument /\ e = ReadableNotBoolean).
Proof.
  split; [|split; [|split]].
  - apply (type_rejection CryptoUndefined
             (options_object (Some (VString "12")) None None)
             (<["length" := VString "12"]> ∅) (VString "12") 0%nat);
      [reflexivity | discriminate | vm_compute; reflexivity | reflexivity].
  - apply (type_rejection CryptoUndefined
             (options_object (Some (VNumber (Finite (Q2Qc (25 # 2))))) None None)
             (<["length" := VNumber (Finite (Q2Qc (25 # 2)))]> ∅)
             (VNumber (Finite (Q2Qc (25 # 2)))) 0%nat);
      [reflexivity | discriminate | vm_compute; reflexivity
      | vm_compute; reflexivity].
  - apply (type_rejection CryptoUndefined
             (options_object None (Some (VString "yes")) None)
             (<["symbols" := VString "yes"]> ∅) (VString "yes") 0%nat);
      [reflexivity | discriminate | left; vm_compute; reflexivity
      | reflexivity | intros _; vm_compute; split; discriminate].
  - apply (type_rejection CryptoUndefined
             (options_object (Some (int 8)) (Some (VBoolean false))
                (Some (int 1)))
             (<["length" := int 8]>
                (<["symbols" := VBoolean false]> (<["readable" := int 1]> ∅)))
             (int 1) 0%nat);
      [reflexivity | discriminate | right; vm_compute; reflexivity
      | reflexivity | intros _; vm_compute; split; discriminate].
Defined.


(** * Further properties of the generator *)

Import Spec2.

Lemma charAt_get (s : string) (i : Z) :
  0 <= i < Z.of_nat (String.length s) ->
  exists c : ascii,
    charAt s i = String c "" /\ String.get (Z.to_nat i) s = Some c.
Proof.
  intros Hi. unfold charAt.
  destruct (Z.ltb_spec i 0) as [?|_]; [lia|].
  destruct (String.get (Z.to_nat i) s) as [c|] eqn:Hget; [by exists c|].
  rewrite get_chars in Hget. apply lookup_ge_None_1 in Hget.
  rewrite length_chars in Hget. lia.
Qed.

Lemma first_raised_none (source : random_source) (n k : nat) :
  (forall i : nat, (i < n)%nat -> exists word, source (k + i)%nat = Filled word) ->
  first_raised source k n = None.
Proof.
  revert k. induction n as [|n IH]; intros k Hfilled; [reflexivity|].
  cbn [first_raised].
  destruct (Hfilled O) as [word Hword]; [lia|].
  rewrite Nat.add_0_r in Hword. rewrite Hword.
  rewrite IH; [reflexivity|].
  intros i Hi. destruct (Hfilled (S i)) as [w Hw]; [lia|].
  exists w. by replace (S k + i)%nat with (k + S i)%nat by lia.
Qed.

(** A loop that completes has appended, for each position, the character
    its own draw selects. *)
Lemma for_loop_sampled
    (source : random_source) (charset : string) (maxAttempts : Z)
    (n : nat) (s s' : loop_state) (k k' : nat) :
  0 < Z.of_nat (String.length charset) ->
  for_loop n (loop_body source charset maxAttempts) s k = (Normal s', k') ->
  exists pw : string,
    password s' = password s +:+ pw /\
    String.length pw = n /\
    forall i : nat, (i < n)%nat ->
      exists word : Z,
        source (k + i)%nat = Filled word /\
        String.get i pw = String.get (selected_index charset word) charset.
Proof.
  intros Hcharset. revert s k.
  induction n as [|n IH]; intros s k; cbn [for_loop].
  - intros [= <- <-]. exists "". rewrite append_empty_r.
    repeat split. intros i Hi. lia.
  - unfold bind at 1.
    destruct (loop_body source charset maxAttempts s k) as [[s1|e] k1] eqn:Hbody;
      [|discriminate].
    intros Hrest. revert Hbody. unfold loop_body.
    destruct (maxAttempts <? attempts s + 1); [discriminate|].
    unfold bind, getRandomValues.
    destruct (source k) as [word|] eqn:Hk; [|discriminate].
    destruct (charAt_get charset
                (Uint32 word mod Z.of_nat (String.length charset)))
      as (c & Hat & Hget).
    { by apply Z.mod_pos_bound. }
    rewrite Hat. intros [= <- <-].
    apply IH in Hrest as (pw & Hpw & Hlen & Hsel).
    cbn [password] in Hpw.
    exists (String c pw). split; [|split].
    + rewrite Hpw, append_associative. reflexivity.
    + cbn [String.length]. by rewrite Hlen.
    + intros [|i] Hi.
      * exists word. rewrite Nat.add_0_r. split; [exact Hk|].
        cbn [String.get]. by rewrite <- Hget.
      * destruct (Hsel i) as (w & Hw & Hgeti); [lia|].
        exists w. replace (k + S i)%nat with (S k + i)%nat by lia.
        split; [exact Hw | exact Hgeti].
Qed.

(** After validation the call is its loop followed by the three checks on
    the loop's password. *)
Lemma generatePassword_loop
    (fields : gmap string value) (source : random_source) (n : Z)
    (s r : bool) (options : value) (k : nat) :
  default_parameter options = VObject fields ->
  length_of options = int n -> 1 <= n <= 1000 ->
  symbols_of options = VBoolean s ->
  readable_of options = VBoolean r ->
  generatePassword (CryptoObject (Some source)) options k
  = (let* st := for_loop (Z.to_nat n)
                  (loop_body source (build_charset s r) (n * 10))
                  {| password := ""; attempts := 0 |} in
     if negb (Z.of_nat (String.length (password st)) =? n)
     then throw (LengthMismatch (Z.of_nat (String.length (password st))) n)
     else
     if negb (forallb (fun char => includes (build_charset s r) (String char ""))
                (list_ascii_of_string (password st)))
     then throw InvalidCharacters else
     if r && test_class confusingChars (password st)
     then throw ConfusingCharacters else
     ret (password st)) k.
Proof.
  intros Hrecord Hlength Hrange Hsymbols Hreadable.
  unfold generatePassword.
  rewrite options_guard, length_guard, !boolean_guard.
  change (destructure (default_parameter options) "length" (int 12))
    with (length_of options).
  change (destructure (default_parameter options) "symbols" (VBoolean true))
    with (symbols_of options).
  change (destructure (default_parameter options) "readable" (VBoolean false))
    with (readable_of options).
  rewrite Hrecord, Hlength, Hsymbols, Hreadable.
  rewrite is_integer_isInteger, int_isInteger, integer_value_int.
  cbn [is_record is_boolean negb ToBoolean].
  destruct (Z.ltb_spec n 1); [lia|].
  destruct (Z.ltb_spec 1000 n); [lia|].
  pose proof (build_charset_size s r) as Hsize.
  destruct (Z.eqb_spec (Z.of_nat (String.length (build_charset s r))) 0); [lia|].
  destruct (Z.ltb_spec (Z.of_nat (String.length (build_charset s r))) 10); [lia|].
  reflexivity.
Qed.

Lemma generatePassword_sampled
    (crypto : crypto_global) (options : value) (k k' : nat) (pw : string) :
  generatePassword crypto options k = (Normal pw, k') ->
  exists source : random_source,
    crypto = CryptoObject (Some source) /\
    forall i : nat, (i < String.length pw)%nat ->
      exists word : Z,
        source (k + i)%nat = Filled word /\
        String.get i pw
        = String.get (selected_index (charset_of options) word)
            (charset_of options).
Proof.
  intros Hcall.
  destruct (first_failure (validation_checks crypto options)) as [e|] eqn:Hchecks.
  { rewrite (generatePassword_validation_failure _ _ k e Hchecks) in Hcall.
    discriminate. }
  apply validation_passed in Hchecks
    as (fields & source & n & s & r & Hrecord & -> & Hlength & Hrange & Hs & Hr).
  exists source. split; [reflexivity|].
  rewrite (generatePassword_loop fields source n s r options k
             Hrecord Hlength Hrange Hs Hr) in Hcall.
  unfold charset_of. rewrite Hs, Hr. cbn [ToBoolean].
  revert Hcall. unfold bind at 1.
  destruct (for_loop (Z.to_nat n) (loop_body source (build_charset s r) (n * 10))
              {| password := ""; attempts := 0 |} k) as [[st|e] k1] eqn:Hloop;
    [|discriminate].
  intros Hchecks.
  assert (Hpw : pw = password st).
  { revert Hchecks. unfold throw, ret.
    repeat match goal with
           | |- (if ?b then _ else _) _ = _ -> _ => destruct b
           end; cbv beta; intros H;
      first [discriminate H | by injection H as <- _]. }
  apply for_loop_sampled in Hloop as (pw' & Heq & Hlen & Hsel).
  2:{ pose proof (build_charset_size s r). lia. }
  cbn [password] in Heq. change ("" +:+ pw') with pw' in Heq.
  rewrite Hpw, Heq, Hlen. exact Hsel.
Qed.

Lemma build_charset_size_upper (symbols readable : bool) :
  Z.of_nat (String.length (build_charset symbols readable)) <= 83.
Proof. destruct symbols, readable; vm_compute; discriminate. Qed.

Lemma get_in_range (s : string) (j : nat) (c : ascii) :
  String.get j s = Some c -> (j < String.length s)%nat.
Proof.
  rewrite get_chars. intros Hget. apply lookup_lt_Some in Hget.
  by rewrite length_chars in Hget.
Qed.

(** X1. The i-th character of a returned password is the charset character at
    index (word mod 2^32) mod (charset size), for the word of the i-th
    draw the call made; every one of those draws filled. *)
Theorem password_characters_by_draw
    (crypto : crypto_global) (options : value) (k k' : nat) (pw : string) :
  generatePassword crypto options k = (Normal pw, k') ->
  exists source : random_source,
    crypto = CryptoObject (Some source) /\
    forall i : nat, (i < String.length pw)%nat ->
      exists word : Z,
        source (k + i)%nat = Filled word /\
        String.get i pw
        = String.get (selected_index (charset_of options) word)
            (charset_of options).
Proof. apply generatePassword_sampled. Qed.

Lemma password_characters_by_draw_witness :
  exists source : random_source,
    CryptoObject (Some counting_source) = CryptoObject (Some source) /\
    forall i : nat, (i < String.length "dkryFMT07%+?elsz")%nat ->
      exists word : Z,
        source (0 + i)%nat = Filled word /\
        String.get i "dkryFMT07%+?elsz"
        = String.get
            (selected_index
               (charset_of (options_object (Some (int 16)) None None)) word)
            (charset_of (options_object (Some (int 16)) None None)).
Proof.
  apply (password_characters_by_draw (CryptoObject (Some counting_source))
           (options_object (Some (int 16)) None None) 0%nat 16%nat).
  vm_compute. reflexivity.
Defined.

(** X2. Every character of the charset can be returned: with a source that
    always fills the word [j], for [j] an index of the charset, a call
    that passes validation returns the character at index [j] repeated
    [length] times. *)
Theorem every_character_reachable
    (options : value) (k j : nat) (c : ascii) :
  first_failure
    (validation_checks (CryptoObject (Some (constant_source (Z.of_nat j))))
       options) = None ->
  String.get j (charset_of options) = Some c ->
  exists pw : string,
    fst (generatePassword (CryptoObject (Some (constant_source (Z.of_nat j))))
           options k) = Normal pw /\
    Z.of_nat (String.length pw) = integer_value (length_of options) /\
    forall i : nat, (i < String.length pw)%nat -> String.get i pw = Some c.
Proof.
  intros Hchecks Hget.
  destruct (generation_succeeds (constant_source (Z.of_nat j)) options k Hchecks)
    as [pw Hcall].
  { apply first_raised_none. intros i _. by eexists. }
  exists pw. rewrite Hcall. split; [reflexivity|].
  destruct (generatePassword_success _ _ _ _ _ Hcall)
    as (n & s & r & Hlength & _ & Hs & Hr & Hlen & _).
  split; [by rewrite Hlength, integer_value_int|].
  destruct (generatePassword_sampled _ _ _ _ _ Hcall) as (source & [= <-] & Hsel).
  intros i Hi. destruct (Hsel i Hi) as (word & [= <-] & ->).
  rewrite <- Hget. f_equal. unfold selected_index, Uint32.
  apply get_in_range in Hget.
  assert (Hupper : Z.of_nat (String.length (charset_of options)) <= 83).
  { unfold charset_of. apply build_charset_size_upper. }
  rewrite (Z.mod_small (Z.of_nat j) (2 ^ 32)) by lia.
  rewrite Z.mod_small by lia. lia.
Qed.

Lemma every_character_reachable_witness :
  exists pw : string,
    fst (generatePassword (CryptoObject (Some (constant_source (Z.of_nat 82))))
           (options_object (Some (int 4)) None None) 0%nat) = Normal pw /\
    Z.of_nat (String.length pw)
    = integer_value (length_of (options_object (Some (int 4)) None None)) /\
    forall i : nat, (i < String.length pw)%nat -> String.get i pw = Some "."%char.
Proof.
  apply (every_character_reachable
           (options_object (Some (int 4)) None None) 0%nat 82%nat "."%char).
  - vm_compute. reflexivity.
  - vm_compute. reflexivity.
Defined.

(** X3. No call makes more than 1000 draws, and a call that returns a password
    has made exactly one draw per character of it. *)
Theorem draw_accounting
    (crypto : crypto_global) (options : value) (k : nat) :
  (k <= snd (generatePassword crypto options k) <= k + 1000)%nat /\
  match fst (generatePassword crypto options k) with
  | Normal pw =>
      snd (generatePassword crypto options k) = (k + String.length pw)%nat
  | Throw _ => True
  end.
Proof.
  destruct (first_failure (validation_checks crypto options)) as [e|] eqn:Hchecks.
  { rewrite (generatePassword_validation_failure _ _ k e Hchecks).
    cbn [fst snd]. split; [lia | exact I]. }
  apply validation_passed in Hchecks
    as (fields & source & n & s & r & Hrecord & -> & Hlength & Hrange & Hs & Hr).
  pose proof (generatePassword_validated fields source n s r options k
                Hrecord Hlength Hrange Hs Hr) as Hgen.
  destruct (first_raised source k (Z.to_nat n)) as [[j message]|] eqn:Hfirst.
  - rewrite Hgen. cbn [fst snd]. apply first_raised_bound in Hfirst.
    split; [lia | exact I].
  - destruct Hgen as (pw & -> & Hlen & _). cbn [fst snd]. split; lia.
Qed.

(** X4. Whatever a call throws has one of four kinds: the errors of the empty
    charset, of the small charset, of the exhausted budget and of the three
    checks on the generated password are thrown by no call. *)
Theorem four_error_kinds
    (crypto : crypto_global) (options : value) (k k' : nat) (e : error) :
  generatePassword crypto options k = (Throw e, k') ->
  kind e ∈ [InvalidArgument; OutOfRange; EnvironmentUnavailable;
            RandomSourceFailure].
Proof.
  intros Hcall.
  destruct (first_failure (validation_checks crypto options)) as [e'|] eqn:Hchecks.
  - rewrite (generatePassword_validation_failure _ _ k e' Hchecks) in Hcall.
    injection Hcall as <- <-.
    revert Hchecks. unfold validation_checks. cbn [first_failure].
    repeat match goal with
           | |- (if ?b then _ else _) = Some _ -> _ => destruct b
           end; intros [= <-]; cbn [kind]; set_solver.
  - destruct (generatePassword_failure _ _ _ _ _ Hchecks Hcall) as (m & -> & _).
    cbn [kind]. set_solver.
Qed.

Lemma four_error_kinds_witness :
  kind CryptoUnavailable ∈ [InvalidArgument; OutOfRange;
                            EnvironmentUnavailable; RandomSourceFailure].
Proof.
  apply (four_error_kinds CryptoUndefined VUndefined 0%nat 0%nat).
  vm_compute. reflexivity.
Defined.

(** X5. With symbols false, no character of a returned password is one of the
    21 symbols. *)
Theorem symbols_excluded
    (crypto : crypto_global) (options : value) (k k' : nat) (pw : string) :
  symbols_of options = VBoolean false ->
  generatePassword crypto options k = (Normal pw, k') ->
  Forall (fun c => c ∉ chars syms) (chars pw).
Proof.
  intros Hsymbols Hcall.
  apply generatePassword_success in Hcall
    as (n & s & r & _ & _ & Hs & _ & _ & _ & Hall & _).
  rewrite Hsymbols in Hs. injection Hs as <-.
  eapply Forall_impl; [exact Hall|].
  intros c Hc Hsym.
  assert (Hdisjoint : Forall (fun c => c ∉ chars syms)
                        (chars (build_charset false r))).
  { apply (bool_decide_unpack _). destruct r; vm_compute; reflexivity. }
  rewrite Forall_forall in Hdisjoint. by apply (Hdisjoint c).
Qed.

Lemma symbols_excluded_witness :
  Forall (fun c => c ∉ chars syms) (chars "dkryFMT07els").
Proof.
  apply (symbols_excluded (CryptoObject (Some counting_source))
           (options_object (Some (int 12)) (Some (VBoolean false)) None)
           0%nat 12%nat).
  - vm_compute. reflexivity.
  - vm_compute. reflexivity.
Defined.

(** A call reads its options object through three properties only. *)
Lemma generatePassword_reads
    (crypto : crypto_global) (fields1 fields2 : gmap string value) (k : nat) :
  (forall key : string, key ∈ option_names ->
     default VUndefined (fields1 !! key) = default VUndefined (fields2 !! key)) ->
  generatePassword crypto (VObject fields1) k
  = generatePassword crypto (VObject fields2) k.
Proof.
  intros Hsame. unfold generatePassword, destructure, property.
  cbn [default_parameter].
  rewrite (Hsame "length"), (Hsame "symbols"), (Hsame "readable");
    [reflexivity | | |]; unfold option_names; set_solver.
Qed.

(** X6. A property under any other name than length, symbols and readable
    changes nothing of a call, and a property set to undefined counts as
    absent. *)
Theorem unread_properties_ignored
    (crypto : crypto_global) (fields : gmap string value) (key : string)
    (v : value) (k : nat) :
  (key ∉ option_names ->
   generatePassword crypto (VObject (<[key := v]> fields)) k
   = generatePassword crypto (VObject fields) k) /\
  generatePassword crypto (VObject (<[key := VUndefined]> fields)) k
  = generatePassword crypto (VObject (delete key fields)) k.
Proof.
  split.
  - intros Hkey. apply generatePassword_reads. intros name Hname.
    rewrite lookup_insert_ne; [reflexivity|]. by intros ->.
  - apply generatePassword_reads. intros name _.
    destruct (decide (key = name)) as [->|Hne].
    + by rewrite lookup_insert_eq, lookup_delete_eq.
    + by rewrite lookup_insert_ne, lookup_delete_ne.
Qed.

Lemma unread_properties_ignored_witness :
  ("symbol" ∉ option_names ->
   generatePassword (CryptoObject (Some counting_source))
     (VObject (<["symbol" := VBoolean false]> (<["length" := int 8]> ∅))) 0%nat
   = generatePassword (CryptoObject (Some counting_source))
       (VObject (<["length" := int 8]> ∅)) 0%nat) /\
  generatePassword (CryptoObject (Some counting_source))
    (VObject (<["symbol" := VUndefined]> (<["length" := int 8]> ∅))) 0%nat
  = generatePassword (CryptoObject (Some counting_source))
      (VObject (delete "symbol" (<["length" := int 8]> ∅))) 0%nat.
Proof.
  exact (unread_properties_ignored (CryptoObject (Some counting_source))
           (<["length" := int 8]> ∅) "symbol" (VBoolean false) 0%nat).
Defined.

(** ** Modulo bias *)

Lemma residue_class (N m i w : Z) :
  0 < m -> 0 <= i < m -> 0 <= w < N ->
  w mod m = i <->
  exists t : Z,
    0 <= t < N / m + (if i <? N mod m then 1 else 0) /\ w = i + m * t.
Proof.
  intros Hm Hi Hw.
  pose proof (Z.div_mod N m ltac:(lia)) as HN.
  pose proof (Z.mod_pos_bound N m Hm) as Hr.
  split.
  - intros Hmod. exists (w / m).
    pose proof (Z.div_mod w m ltac:(lia)) as Hdm. rewrite Hmod in Hdm.
    assert (0 <= w / m) by (apply Z.div_pos; lia).
    split; [|lia]. split; [lia|].
    destruct (Z.ltb_spec i (N mod m)); nia.
  - intros (t & Ht & ->).
    replace (i + m * t) with (i + t * m) by lia.
    rewrite Z.mod_add by lia. apply Z.mod_small. lia.
Qed.

(** X7. The index selection is biased for every charset the generator builds:
    its size [m] does not divide 2^32; the words that select index [i] are
    exactly the [i + m * t] for [t] below 2^32 / m, plus one more when
    [i < 2^32 mod m]; so the first index is selected by one more word than
    the last. *)
Theorem modulo_bias (symbols readable : bool) (i word : Z) :
  let m := Z.of_nat (String.length (build_charset symbols readable)) in
  0 <= i < m ->
  2 ^ 32 mod m <> 0 /\
  (Uint32 word mod m = i <->
   exists t : Z, 0 <= t < words_selecting m i /\ Uint32 word = i + m * t) /\
  words_selecting m 0 = words_selecting m (m - 1) + 1.
Proof.
  intros m Hi.
  split; [|split].
  - subst m. destruct symbols, readable; vm_compute; discriminate.
  - apply residue_class; [lia | exact Hi |].
    unfold Uint32. apply Z.mod_pos_bound. lia.
  - subst m. destruct symbols, readable; vm_compute; reflexivity.
Qed.

Lemma modulo_bias_witness :
  2 ^ 32 mod 83 <> 0 /\
  (Uint32 (2 ^ 32 + 85) mod 83 = 2 <->
   exists t : Z,
     0 <= t < words_selecting 83 2 /\ Uint32 (2 ^ 32 + 85) = 2 + 83 * t) /\
  words_selecting 83 0 = words_selecting 83 (83 - 1) + 1.
Proof.
  apply (modulo_bias true false 2 (2 ^ 32 + 85)).
  vm_compute. split; [discriminate | reflexivity].
Defined.

(** * Properties of the command-line front end *)

Import JSText.

Lemma generator_options_read (n : Z) (options : Program.program_options) :
  length_of (Program.generator_options n options) = int n /\
  symbols_of (Program.generator_options n options)
    = VBoolean (Program.symbols options) /\
  readable_of (Program.generator_options n options)
    = VBoolean (Program.readable options).
Proof.
  unfold length_of, symbols_of, readable_of, Program.generator_options.
  cbn [default_parameter].
  repeat split; apply destructure_provided; try discriminate;
    by simplify_map_eq.
Qed.

Lemma generator_options_checks
    (crypto : crypto_global) (n : Z) (options : Program.program_options) :
  1 <= n <= 1000 ->
  first_failure (validation_checks crypto (Program.generator_options n options))
  = if source_available crypto then None else Some CryptoUnavailable.
Proof.
  intros Hrange. unfold validation_checks. cbn [first_failure].
  destruct (generator_options_read n options) as (-> & -> & ->).
  rewrite integer_value_int, (proj2 (is_integer_iff (int n))) by eauto.
  cbn [Program.generator_options default_parameter is_record is_boolean].
  destruct (Z.leb_spec 1 n); [|lia].
  destruct (Z.leb_spec n 1000); [|lia]. reflexivity.
Qed.

(** What [main] does for a length in range and for any other. *)
Lemma main_in_range
    (crypto : crypto_global) (clipboard : Program.clipboard_writer)
    (options : Program.program_options) (k : nat) (n : Z) :
  parseInt (Program.length options) = Some n -> 1 <= n <= 1000 ->
  Program.main crypto clipboard options k
  = match generatePassword crypto (Program.generator_options n options) k with
    | (Normal password, k') =>
        (Program.displayPassword clipboard password options, k')
    | (Throw e, k') => (Program.GenerationFailed e, k')
    end.
Proof.
  intros Hparse Hrange. unfold Program.main. rewrite Hparse.
  destruct (Z.ltb_spec n 1); [lia|].
  destruct (Z.ltb_spec 1000 n); [lia|]. reflexivity.
Qed.

Lemma main_out_of_range
    (crypto : crypto_global) (clipboard : Program.clipboard_writer)
    (options : Program.program_options) (k : nat) :
  match parseInt (Program.length options) with
  | Some n => n < 1 \/ 1000 < n
  | None => True
  end ->
  Program.main crypto clipboard options k = (Program.LengthRejected, k).
Proof.
  unfold Program.main.
  destruct (parseInt (Program.length options)) as [n|]; [|reflexivity].
  intros Hrange.
  destruct (Z.ltb_spec n 1); [reflexivity|].
  destruct (Z.ltb_spec 1000 n); [reflexivity | lia].
Qed.

Lemma displayPassword_outcome
    (clipboard : Program.clipboard_writer) (password : string)
    (options : Program.program_options) :
  (exists report message,
     Program.displayPassword clipboard password options
       = Program.ClipboardFailed password report message
     /\ clipboard password = Some message) \/
  (exists report,
     Program.displayPassword clipboard password options
       = Program.Completed password report
     /\ clipboard password = None).
Proof.
  unfold Program.displayPassword.
  destruct (clipboard password) as [message|]; [left | right]; eauto.
Qed.

(** [main] reaches one of three cases. *)
Lemma main_cases
    (crypto : crypto_global) (clipboard : Program.clipboard_writer)
    (options : Program.program_options) (k : nat) :
  (match parseInt (Program.length options) with
   | Some n => n < 1 \/ 1000 < n
   | None => True
   end /\
   Program.main crypto clipboard options k = (Program.LengthRejected, k)) \/
  (exists n e k',
     parseInt (Program.length options) = Some n /\ 1 <= n <= 1000 /\
     generatePassword crypto (Program.generator_options n options) k
       = (Throw e, k') /\
     Program.main crypto clipboard options k
       = (Program.GenerationFailed e, k')) \/
  (exists n password k',
     parseInt (Program.length options) = Some n /\ 1 <= n <= 1000 /\
     generatePassword crypto (Program.generator_options n options) k
       = (Normal password, k') /\
     Program.main crypto clipboard options k
       = (Program.displayPassword clipboard password options, k')).
Proof.
  destruct (parseInt (Program.length options)) as [n|] eqn:Hparse.
  - destruct (Z.le_gt_cases 1 n) as [Hlow|Hlow];
      [destruct (Z.le_gt_cases n 1000) as [Hhigh|Hhigh]|].
    + right.
      rewrite (main_in_range crypto clipboard options k n Hparse) by lia.
      destruct (generatePassword crypto (Program.generator_options n options) k)
        as [[password|e] k'] eqn:Hcall.
      * right. exists n, password, k'.
        repeat split; first [reflexivity | assumption].
      * left. exists n, e, k'.
        repeat split; first [reflexivity | assumption].
    + left. split; [by right|]. apply main_out_of_range. rewrite Hparse.
      by right.
    + left. split; [by left|]. apply main_out_of_range. rewrite Hparse.
      by left.
  - left. split; [exact I|]. apply main_out_of_range. by rewrite Hparse.
Qed.

(** X8. The front end rejects the length exactly when [parseInt] gives NaN or
    an integer outside 1..1000, and it then ends without a draw: the
    generator is not called. *)
Theorem length_gate
    (crypto : crypto_global) (clipboard : Program.clipboard_writer)
    (options : Program.program_options) (k : nat) :
  (fst (Program.main crypto clipboard options k) = Program.LengthRejected <->
   match parseInt (Program.length options) with
   | Some n => n < 1 \/ 1000 < n
   | None => True
   end) /\
  (fst (Program.main crypto clipboard options k) = Program.LengthRejected ->
   snd (Program.main crypto clipboard options k) = k).
Proof.
  destruct (main_cases crypto clipboard options k)
    as [[Hout ->]|[(n & e & k' & Hparse & Hrange & _ & ->)
                  |(n & pw & k' & Hparse & Hrange & _ & ->)]];
    cbn [fst snd].
  - split; [split|]; intros _; [exact Hout | reflexivity | reflexivity].
  - rewrite Hparse. split; [split|]; [discriminate | lia | discriminate].
  - rewrite Hparse.
    destruct (displayPassword_outcome clipboard pw options)
      as [(report & message & -> & _)|(report & -> & _)];
      (split; [split|]; [discriminate | lia | discriminate]).
Qed.

Lemma length_gate_witness :
  (fst (Program.main CryptoUndefined working_clipboard
          {| Program.length := "1001"; Program.symbols := false;
             Program.readable := false; Program.verbose := false |} 4%nat)
     = Program.LengthRejected <->
   match parseInt "1001" with
   | Some n => n < 1 \/ 1000 < n
   | None => True
   end) /\
  (fst (Program.main CryptoUndefined working_clipboard
          {| Program.length := "1001"; Program.symbols := false;
             Program.readable := false; Program.verbose := false |} 4%nat)
     = Program.LengthRejected ->
   snd (Program.main CryptoUndefined working_clipboard
          {| Program.length := "1001"; Program.symbols := false;
             Program.readable := false; Program.verbose := false |} 4%nat)
     = 4%nat).
Proof.
  exact (length_gate CryptoUndefined working_clipboard
           {| Program.length := "1001"; Program.symbols := false;
              Program.readable := false; Program.verbose := false |} 4%nat).
Defined.

(** X9. When the program ends in the catch block of [main] ('Error
    generating password:'), it is for one of three reasons: the secure
    random source is missing, and no draw was made; a draw raised; or the
    clipboard write threw, after the generator had returned the password
    and made one draw per character of it.  The generator never rejects
    the options [main] builds for it. *)
Theorem cli_generation_errors
    (crypto : crypto_global) (clipboard : Program.clipboard_writer)
    (options : Program.program_options) (k k' : nat)
    (o : Program.main_outcome) :
  Program.main crypto clipboard options k = (o, k') ->
  (exists e, o = Program.GenerationFailed e) \/
  (exists pw report message, o = Program.ClipboardFailed pw report message) ->
  (source_available crypto = false /\
   o = Program.GenerationFailed CryptoUnavailable /\ k' = k) \/
  (source_available crypto = true /\
   exists message : string,
     o = Program.GenerationFailed (RandomNumberFailed message) /\ (k < k')%nat) \/
  (source_available crypto = true /\
   exists (pw : string) (report : option Program.details) (message : string),
     o = Program.ClipboardFailed pw report message /\
     clipboard pw = Some message /\
     parseInt (Program.length options) = Some (Z.of_nat (String.length pw)) /\
     k' = (k + String.length pw)%nat).
Proof.
  intros Hmain Hcatch.
  destruct (main_cases crypto clipboard options k)
    as [[_ Heq]|[(n & e1 & k1 & _ & Hrange & Hcall & Heq)
                |(n & pw & k1 & Hparse & Hrange & Hcall & Heq)]];
    rewrite Heq in Hmain.
  - injection Hmain as <- _.
    destruct Hcatch as [[e He]|(pw & report & message & He)]; discriminate.
  - injection Hmain as <- <-.
    pose proof (generator_options_checks crypto n options Hrange) as Hchecks.
    destruct (source_available crypto).
    + right. left. split; [reflexivity|].
      destruct (generatePassword_failure _ _ _ _ _ Hchecks Hcall)
        as (message & -> & Hk).
      by exists message.
    + left. split; [reflexivity|].
      rewrite (generatePassword_validation_failure _ _ k _ Hchecks) in Hcall.
      by injection Hcall as <- <-.
  - injection Hmain as <- <-.
    pose proof (generator_options_checks crypto n options Hrange) as Hchecks.
    destruct (source_available crypto).
    2:{ rewrite (generatePassword_validation_failure _ _ k _ Hchecks) in Hcall.
        discriminate. }
    destruct (displayPassword_outcome clipboard pw options)
      as [(report & message & Hd & Hclip)|(report & Hd & _)]; rewrite Hd in *.
    + right. right. split; [reflexivity|].
      exists pw, report, message.
      destruct (generatePassword_success _ _ _ _ _ Hcall)
        as (n' & _ & _ & Hlength & _ & _ & _ & Hlen & Hk & _).
      destruct (generator_options_read n options) as (Hl & _).
      rewrite Hl in Hlength. apply (f_equal integer_value) in Hlength.
      rewrite !integer_value_int in Hlength. subst n'.
      repeat split; [exact Hclip | by rewrite Hlen | lia].
    + destruct Hcatch as [[e He]|(pw' & report' & message & He)]; discriminate.
Qed.

Lemma cli_generation_errors_witness :
  (source_available (CryptoObject (Some counting_source)) = false /\
   Program.ClipboardFailed "dkry" None "no display"
     = Program.GenerationFailed CryptoUnavailable /\ 4%nat = 0%nat) \/
  (source_available (CryptoObject (Some counting_source)) = true /\
   exists message : string,
     Program.ClipboardFailed "dkry" None "no display"
       = Program.GenerationFailed (RandomNumberFailed message) /\ (0 < 4)%nat) \/
  (source_available (CryptoObject (Some counting_source)) = true /\
   exists (pw : string) (report : option Program.details) (message : string),
     Program.ClipboardFailed "dkry" None "no display"
       = Program.ClipboardFailed pw report message /\
     (fun _ : string => Some "no display") pw = Some message /\
     parseInt "4" = Some (Z.of_nat (String.length pw)) /\
     4%nat = (0 + String.length pw)%nat).
Proof.
  apply (cli_generation_errors (CryptoObject (Some counting_source))
           (fun _ => Some "no display")
           {| Program.length := "4"; Program.symbols := true;
              Program.readable := false; Program.verbose := false |}
           0%nat 4%nat (Program.ClipboardFailed "dkry" None "no display")).
  - vm_compute. reflexivity.
  - right. by eexists _, _, _.
Defined.

(** X10. When the program completes, the password it showed and copied has
    exactly the number of characters [parseInt] read from the length
    argument, drawn one draw each from the charset of the two flags; the
    exit code is 0. *)
Theorem cli_completed
    (crypto : crypto_global) (clipboard : Program.clipboard_writer)
    (options : Program.program_options) (k k' : nat)
    (pw : string) (report : option Program.details) :
  Program.main crypto clipboard options k = (Program.Completed pw report, k') ->
  exists n : Z,
    parseInt (Program.length options) = Some n /\ 1 <= n <= 1000 /\
    Z.of_nat (String.length pw) = n /\
    k' = (k + String.length pw)%nat /\
    Forall (fun c => c ∈ chars (build_charset (Program.symbols options)
                                  (Program.readable options))) (chars pw) /\
    clipboard pw = None /\
    Program.exit_code (Program.Completed pw report) = 0.
Proof.
  intros Hmain.
  destruct (main_cases crypto clipboard options k)
    as [[_ Heq]|[(n & e1 & k1 & _ & _ & _ & Heq)
                |(n & pw1 & k1 & Hparse & Hrange & Hcall & Heq)]];
    rewrite Heq in Hmain; try discriminate.
  destruct (displayPassword_outcome clipboard pw1 options)
    as [(report1 & message & Hd & _)|(report1 & Hd & Hclip)];
    rewrite Hd in Hmain; [discriminate|].
  injection Hmain as -> -> ->.
  destruct (generatePassword_success _ _ _ _ _ Hcall)
    as (n' & s & r & Hlength & _ & Hs & Hr & Hlen & Hk & Hall & _).
  destruct (generator_options_read n options) as (Hl & Hs' & Hr').
  rewrite Hl in Hlength. rewrite Hs' in Hs. rewrite Hr' in Hr.
  apply (f_equal integer_value) in Hlength.
  rewrite !integer_value_int in Hlength.
  injection Hs as <-. injection Hr as <-. subst n'.
  exists n. repeat split; try assumption; try reflexivity; lia.
Qed.

Lemma cli_completed_witness :
  exists n : Z,
    parseInt " 16 characters" = Some n /\ 1 <= n <= 1000 /\
    Z.of_nat (String.length "dkryFMT07%+?elsz") = n /\
    16%nat = (0 + String.length "dkryFMT07%+?elsz")%nat /\
    Forall (fun c => c ∈ chars (build_charset true false))
      (chars "dkryFMT07%+?elsz") /\
    working_clipboard "dkryFMT07%+?elsz" = None /\
    Program.exit_code (Program.Completed "dkryFMT07%+?elsz" None) = 0.
Proof.
  apply (cli_completed (CryptoObject (Some counting_source)) working_clipboard
           {| Program.length := " 16 characters"; Program.symbols := true;
              Program.readable := false; Program.verbose := false |} 0%nat).
  vm_compute. reflexivity.
Defined.

(** X11. The program does complete: with a length that [parseInt] reads in
    1..1000, a source none of whose next [length] draws raises and a
    clipboard that accepts the password, it ends with exit code 0 after
    exactly [length] draws. *)
Theorem cli_succeeds
    (source : random_source) (clipboard : Program.clipboard_writer)
    (options : Program.program_options) (k : nat) (n : Z) :
  parseInt (Program.length options) = Some n -> 1 <= n <= 1000 ->
  (forall i : nat, (i < Z.to_nat n)%nat ->
     exists word, source (k + i)%nat = Filled word) ->
  (forall pw : string, clipboard pw = None) ->
  exists (pw : string) (report : option Program.details),
    Program.main (CryptoObject (Some source)) clipboard options k
      = (Program.Completed pw report, (k + Z.to_nat n)%nat) /\
    Program.exit_code
      (fst (Program.main (CryptoObject (Some source)) clipboard options k)) = 0.
Proof.
  intros Hparse Hrange Hfilled Hclip.
  pose proof (generator_options_checks (CryptoObject (Some source)) n options
                Hrange) as Hchecks.
  cbn [source_available] in Hchecks.
  destruct (generator_options_read n options) as (Hl & _).
  destruct (generation_succeeds source (Program.generator_options n options) k
              Hchecks) as [pw Hcall].
  { rewrite Hl, integer_value_int. by apply first_raised_none. }
  rewrite Hl, integer_value_int in Hcall.
  rewrite (main_in_range _ clipboard options k n Hparse Hrange), Hcall.
  unfold Program.displayPassword. rewrite Hclip.
  eexists _, _. split; reflexivity.
Qed.

Lemma cli_succeeds_witness :
  exists (pw : string) (report : option Program.details),
    Program.main (CryptoObject (Some counting_source)) working_clipboard
      {| Program.length := "0x10"; Program.symbols := false;
         Program.readable := true; Program.verbose := true |} 3%nat
      = (Program.Completed pw report, (3 + Z.to_nat 16)%nat) /\
    Program.exit_code
      (fst (Program.main (CryptoObject (Some counting_source)) working_clipboard
              {| Program.length := "0x10"; Program.symbols := false;
                 Program.readable := true; Program.verbose := true |} 3%nat))
    = 0.
Proof.
  apply (cli_succeeds counting_source working_clipboard
           {| Program.length := "0x10"; Program.symbols := false;
              Program.readable := true; Program.verbose := true |} 3%nat 16).
  - vm_compute. reflexivity.
  - lia.
  - intros i _. by eexists.
  - reflexivity.
Defined.

(** X12. The charset size the front end reports is the size of the charset the
    generator builds for the same flags, less 3 when symbols is on (21
    symbols counted as 18) and less 1 when readable is on (5 characters
    removed, 6 subtracted): it is exact only with both flags off and never
    too large. *)
Theorem reported_charset_size (options : Cli.cli_options) :
  Cli.calculateCharsetSize options
  = Z.of_nat (String.length
                (build_charset (Cli.symbols options) (Cli.readable options)))
    - (if Cli.symbols options then 3 else 0)
    - (if Cli.readable options then 1 else 0).
Proof. destruct options as [[] []]; reflexivity. Qed.

(** ** The length argument *)

Lemma decimal_digit_value (c : ascii) :
  decimal_digit c = true ->
  exists v : Z, digit_value c = Some v /\ 0 <= v < 10.
Proof.
  unfold decimal_digit, digit_value. cbv zeta. intros Hc. rewrite Hc.
  apply andb_true_iff in Hc as [Hlow Hhigh].
  apply Z.leb_le in Hlow, Hhigh. eexists. split; [reflexivity | lia].
Qed.

Lemma parse_digits_stops (c : ascii) (rest : string) (acc : option Z) :
  decimal_digit c = false ->
  parse_digits 10 (String c rest) acc = acc.
Proof.
  unfold decimal_digit. cbn [parse_digits]. unfold digit_value. cbv zeta.
  intros ->.
  repeat match goal with
         | |- context [if ?b then _ else _] =>
             match b with
             | andb _ _ => destruct b eqn:?
             end
         end; try reflexivity.
  - match goal with
    | H : andb _ _ = true |- _ =>
        apply andb_true_iff in H as [H1 H2]; apply Z.leb_le in H1, H2
    end.
    destruct (Z.ltb_spec (Z.of_nat (nat_of_ascii c) - 97 + 10) 10);
      [lia | reflexivity].
  - match goal with
    | H : andb _ _ = true |- _ =>
        apply andb_true_iff in H as [H1 H2]; apply Z.leb_le in H1, H2
    end.
    destruct (Z.ltb_spec (Z.of_nat (nat_of_ascii c) - 65 + 10) 10);
      [lia | reflexivity].
Qed.

Lemma parse_digits_decimal_prefix (digits : string) (c : ascii) (rest : string) :
  Forall (fun d => decimal_digit d = true) (chars digits) ->
  decimal_digit c = false ->
  forall acc : option Z,
    parse_digits 10 (digits +:+ String c rest) acc
    = parse_digits 10 digits acc.
Proof.
  intros Hdigits Hc.
  induction digits as [|d digits IH]; intros acc.
  - change ("" +:+ String c rest) with (String c rest).
    by rewrite parse_digits_stops.
  - rewrite chars_cons, Forall_cons in Hdigits.
    destruct Hdigits as [Hd Hdigits].
    rewrite append_cons. cbn [parse_digits].
    destruct (decimal_digit_value d Hd) as (v & -> & Hv).
    destruct (Z.ltb_spec v 10); [|lia]. by apply IH.
Qed.

(** On a text that starts with a decimal digit, and not with [0x] or
    [0X], [parseInt] reads decimal digits. *)
Lemma parseInt_decimal (d : ascii) (tail : string) :
  decimal_digit d = true ->
  (d = "0"%char ->
   forall c t, tail = String c t -> c <> "x"%char /\ c <> "X"%char) ->
  parseInt (String d tail) = parse_digits 10 (String d tail) None.
Proof.
  intros Hd Hprefix.
  assert (Hsign : forall m : option Z,
            match m with Some v => Some (1 * v) | None => None end = m).
  { intros [v|]; [by rewrite Z.mul_1_l | reflexivity]. }
  destruct d as [b0 b1 b2 b3 b4 b5 b6 b7].
  destruct b0, b1, b2, b3, b4, b5, b6, b7;
    try (vm_compute in Hd; discriminate Hd); clear Hd;
    try (exact (Hsign _)).
  destruct tail as [|c t]; [reflexivity|].
  destruct (Hprefix eq_refl c t eq_refl) as [Hx HX].
  destruct c as [c0 c1 c2 c3 c4 c5 c6 c7].
  destruct c0, c1, c2, c3, c4, c5, c6, c7;
    try (exfalso; apply Hx; reflexivity);
    try (exfalso; apply HX; reflexivity);
    first [reflexivity | exact (Hsign _)].
Qed.

Lemma decimal_digit_not_x (c : ascii) :
  decimal_digit c = true -> c <> "x"%char /\ c <> "X"%char.
Proof. intros Hc. split; intros ->; vm_compute in Hc; discriminate. Qed.

(** X13. Text after the digits of the length argument is ignored: an argument
    made of decimal digits followed by any text that does not start with
    a decimal digit (12.9, 12abc, 12 characters) runs the program exactly
    as its digits alone do, but for 0x and 0X, which start a hexadecimal
    number. *)
Theorem lenient_length
    (crypto : crypto_global) (clipboard : Program.clipboard_writer)
    (digits : string) (c : ascii) (rest : string)
    (symbols readable verbose : bool) (k : nat) :
  digits <> "" ->
  Forall (fun d => decimal_digit d = true) (chars digits) ->
  decimal_digit c = false ->
  (digits = "0" -> c <> "x"%char /\ c <> "X"%char) ->
  Program.main crypto clipboard
    {| Program.length := digits +:+ String c rest;
       Program.symbols := symbols; Program.readable := readable;
       Program.verbose := verbose |} k
  = Program.main crypto clipboard
      {| Program.length := digits;
         Program.symbols := symbols; Program.readable := readable;
         Program.verbose := verbose |} k.
Proof.
  intros Hnonempty Hdigits Hc Hzero.
  assert (Hparse : parseInt (digits +:+ String c rest) = parseInt digits).
  { destruct digits as [|d ds]; [done|].
    pose proof Hdigits as Hall.
    rewrite chars_cons, Forall_cons in Hall. destruct Hall as [Hd Hds].
    rewrite append_cons, !parseInt_decimal; try assumption.
    - rewrite <- append_cons. by apply parse_digits_decimal_prefix.
    - intros -> c' t ->.
      rewrite chars_cons, Forall_cons in Hds.
      apply decimal_digit_not_x, Hds.
    - intros -> c' t Htail.
      destruct ds as [|d2 ds'].
      + injection Htail as <- _. by apply Hzero.
      + rewrite append_cons in Htail. injection Htail as <- _.
        rewrite chars_cons, Forall_cons in Hds.
        apply decimal_digit_not_x, Hds. }
  unfold Program.main, Program.displayPassword, Program.generator_options.
  cbn [Program.length Program.symbols Program.readable Program.verbose].
  rewrite Hparse. reflexivity.
Qed.

Lemma lenient_length_witness :
  Program.main (CryptoObject (Some counting_source)) working_clipboard
    {| Program.length := "12" +:+ String "." "9";
       Program.symbols := true; Program.readable := false;
       Program.verbose := true |} 0%nat
  = Program.main (CryptoObject (Some counting_source)) working_clipboard
      {| Program.length := "12";
         Program.symbols := true; Program.readable := false;
         Program.verbose := true |} 0%nat.
Proof.
  apply (lenient_length (CryptoObject (Some counting_source)) working_clipboard
           "12" "."%char "9" true false true 0%nat).
  - discriminate.
  - repeat constructor.
  - reflexivity.
  - discriminate.
Defined.

(** ** The verbose report *)

Lemma test_class_true (cls : char_class) (s : string) :
  test_class cls s = true <-> exists c : ascii, c ∈ chars s /\ c ∈ cls.
Proof.
  induction s as [|a s IH]; cbn [test_class].
  - split; [discriminate|]. intros (c & Hc & _). by apply elem_of_nil in Hc.
  - rewrite chars_cons, orb_true_iff, class_matches_iff, IH. split.
    + intros [Ha|(c & Hc & Hcls)]; [exists a | exists c];
        (split; [|assumption]); [left | by right].
    + intros (c & Hc & Hcls). apply elem_of_cons in Hc as [->|Hc];
        [by left | right; by exists c].
Qed.

(** The class of the report's "Contains symbols" line holds exactly the
    characters of the generator's symbol string. *)
Lemma symbol_class_agrees (c : ascii) :
  existsb (item_matches c) Program.symbol_class
  = class_matches (list_ascii_of_string syms) c.
Proof.
  destruct c as [b0 b1 b2 b3 b4 b5 b6 b7].
  destruct b0, b1, b2, b3, b4, b5, b6, b7; reflexivity.
Qed.

Lemma regexp_test_symbols (pw : string) :
  regexp_test Program.symbol_class pw
  = test_class (list_ascii_of_string syms) pw.
Proof.
  induction pw as [|c pw IH]; [reflexivity|].
  cbn [regexp_test test_class]. by rewrite symbol_class_agrees, IH.
Qed.

Lemma no_symbols_charset (readable : bool) :
  Forall (fun c => c ∉ chars syms) (chars (build_charset false readable)).
Proof.
  apply (bool_decide_unpack _). destruct readable; vm_compute; reflexivity.
Qed.

Lemma main_completed_inv
    (crypto : crypto_global) (clipboard : Program.clipboard_writer)
    (options : Program.program_options) (k k' : nat)
    (pw : string) (report : option Program.details) :
  Program.main crypto clipboard options k = (Program.Completed pw report, k') ->
  exists n : Z,
    1 <= n <= 1000 /\
    generatePassword crypto (Program.generator_options n options) k
      = (Normal pw, k') /\
    Program.displayPassword clipboard pw options = Program.Completed pw report.
Proof.
  intros Hmain.
  destruct (main_cases crypto clipboard options k)
    as [[_ Heq]|[(n & e1 & k1 & _ & _ & _ & Heq)
                |(n & pw1 & k1 & _ & Hrange & Hcall & Heq)]];
    rewrite Heq in Hmain; try discriminate.
  exists n. split; [exact Hrange|].
  destruct (displayPassword_outcome clipboard pw1 options)
    as [(report1 & message & Hd & _)|(report1 & Hd & _)].
  - rewrite Hd in Hmain. discriminate.
  - injection Hmain as Hdisplay <-. rewrite Hd in Hdisplay.
    injection Hdisplay as <- <-. split; [exact Hcall | exact Hd].
Qed.

(** X14. The "Contains symbols" line of the verbose report says Yes exactly
    when the password holds one of the generator's 21 symbols, and it
    says No whenever the symbols flag is off. *)
Theorem cli_symbol_report
    (crypto : crypto_global) (clipboard : Program.clipboard_writer)
    (options : Program.program_options) (k k' : nat)
    (pw : string) (d : Program.details) :
  Program.main crypto clipboard options k
    = (Program.Completed pw (Some d), k') ->
  (Program.contains_symbols d = true <->
   exists c : ascii, c ∈ chars pw /\ c ∈ chars syms) /\
  (Program.symbols options = false -> Program.contains_symbols d = false).
Proof.
  intros Hmain.
  apply main_completed_inv in Hmain as (n & _ & Hcall & Hdisplay).
  assert (Hd : Program.contains_symbols d
               = test_class (list_ascii_of_string syms) pw).
  { revert Hdisplay. unfold Program.displayPassword.
    destruct (clipboard pw); [discriminate|].
    destruct (Program.verbose options); [|discriminate].
    intros [= <-]. cbn [Program.contains_symbols].
    apply regexp_test_symbols. }
  rewrite Hd. split; [apply test_class_true|].
  intros Hoff. apply test_class_false.
  apply generatePassword_success in Hcall
    as (n' & s & r & _ & _ & Hs & _ & _ & _ & Hall & _).
  destruct (generator_options_read n options) as (_ & Hs' & _).
  rewrite Hs', Hoff in Hs. injection Hs as <-.
  pose proof (no_symbols_charset r) as Hdisjoint.
  rewrite Forall_forall in Hdisjoint.
  eapply Forall_impl; [exact Hall|]. intros c Hc. by apply Hdisjoint.
Qed.

Lemma cli_symbol_report_witness :
  (Program.contains_symbols
     {| Program.shown_length := 12; Program.contains_symbols := false;
        Program.contains_numbers := true; Program.contains_uppercase := true;
        Program.contains_lowercase := true; Program.charsetSize := 62 |}
   = true <->
   exists c : ascii, c ∈ chars "dkryFMT07els" /\ c ∈ chars syms) /\
  (Program.symbols
     {| Program.length := "12"; Program.symbols := false;
        Program.readable := false; Program.verbose := true |} = false ->
   Program.contains_symbols
     {| Program.shown_length := 12; Program.contains_symbols := false;
        Program.contains_numbers := true; Program.contains_uppercase := true;
        Program.contains_lowercase := true; Program.charsetSize := 62 |}
   = false).
Proof.
  apply (cli_symbol_report (CryptoObject (Some counting_source))
           working_clipboard
           {| Program.length := "12"; Program.symbols := false;
              Program.readable := false; Program.verbose := true |}
           0%nat 12%nat "dkryFMT07els").
  vm_compute. reflexivity.
Defined.

(** X15. Each character of a returned password matches exactly one of the four
    classes the verbose report tests (symbols, digits, uppercase,
    lowercase). *)
Theorem report_classes_partition
    (crypto : crypto_global) (options : value) (k k' : nat) (pw : string) :
  generatePassword crypto options k = (Normal pw, k') ->
  Forall (fun c => classes_matching c = 1%nat) (chars pw).
Proof.
  intros Hcall.
  apply generatePassword_success in Hcall
    as (n & s & r & _ & _ & _ & _ & _ & _ & Hall & _).
  assert (Halphabet : Forall (fun c => classes_matching c = 1%nat)
                        (chars (build_charset s r))).
  { apply (bool_decide_unpack _). destruct s, r; vm_compute; reflexivity. }
  rewrite Forall_forall in Halphabet.
  eapply Forall_impl; [exact Hall|]. intros c Hc. by apply Halphabet.
Qed.

Lemma report_classes_partition_witness :
  Forall (fun c => classes_matching c = 1%nat) (chars "dkryFMT07%+?elsz").
Proof.
  apply (report_classes_partition (CryptoObject (Some counting_source))
           (options_object (Some (int 16)) None None) 0%nat 16%nat).
  vm_compute. reflexivity.
Defined.

(** * Properties of the test script *)

Lemma tested_symbols_are_symbols (c : ascii) :
  existsb (item_matches c) Tests.tested_symbols = true -> c ∈ chars syms.
Proof.
  intros Hc. apply class_matches_iff. revert Hc.
  destruct c as [b0 b1 b2 b3 b4 b5 b6 b7].
  destruct b0, b1, b2, b3, b4, b5, b6, b7; vm_compute;
    first [reflexivity | discriminate].
Qed.

Lemma regexp_test_tested_symbols (pw : string) :
  Forall (fun c => c ∉ chars syms) (chars pw) ->
  regexp_test Tests.tested_symbols pw = false.
Proof.
  induction pw as [|c pw IH]; [reflexivity|].
  rewrite chars_cons, Forall_cons. intros [Hc Hpw].
  cbn [regexp_test]. rewrite (IH Hpw), orb_false_r.
  destruct (existsb (item_matches c) Tests.tested_symbols) eqn:Hmatch;
    [|reflexivity].
  by apply tested_symbols_are_symbols in Hmatch.
Qed.

(** Neither assertion of the script decides its outcome: the script does
    what its two calls of the generator do. *)
Lemma generator_test_calls (crypto : crypto_global) (k : nat) :
  Tests.generator_test crypto k
  = match generatePassword crypto (VObject (<["length" := int 16]> ∅)) k with
    | (Throw e, k1) => (Tests.Uncaught e, k1)
    | (Normal _, k1) =>
        match generatePassword crypto
                (VObject (<["length" := int 12]>
                           (<["symbols" := VBoolean false]> ∅))) k1 with
        | (Throw e, k2) => (Tests.Uncaught e, k2)
        | (Normal _, k2) => (Tests.AllPassed, k2)
        end
    end.
Proof.
  unfold Tests.generator_test.
  destruct (generatePassword crypto (VObject (<["length" := int 16]> ∅)) k)
    as [[pass|e] k1] eqn:Hfirst; [|reflexivity].
  apply generatePassword_success in Hfirst
    as (n & _ & _ & Hlength & _ & _ & _ & Hlen & _).
  apply (f_equal integer_value) in Hlength.
  rewrite integer_value_int in Hlength. vm_compute in Hlength. subst n.
  rewrite Hlen. cbn [Z.eqb Pos.eqb negb].
  destruct (generatePassword crypto
              (VObject (<["length" := int 12]>
                         (<["symbols" := VBoolean false]> ∅))) k1)
    as [[noSymbols|e] k2] eqn:Hsecond; [|reflexivity].
  apply generatePassword_success in Hsecond
    as (n & s & r & _ & _ & Hs & _ & _ & _ & Hall & _).
  assert (s = false) as ->.
  { apply (f_equal ToBoolean) in Hs. vm_compute in Hs. congruence. }
  rewrite regexp_test_tested_symbols; [reflexivity|].
  pose proof (no_symbols_charset r) as Hdisjoint.
  rewrite Forall_forall in Hdisjoint.
  eapply Forall_impl; [exact Hall|]. intros c Hc. by apply Hdisjoint.
Qed.

(** X16. The assertions of the test script fail for no environment and no
    draws; with a source whose next 28 draws fill, the script passes,
    after 16 draws for its first call and 12 for its second. *)
Theorem test_script_passes (crypto : crypto_global) (k : nat) :
  (forall line : nat,
     fst (Tests.generator_test crypto k) <> Tests.AssertionFailed line) /\
  (forall source : random_source,
     crypto = CryptoObject (Some source) ->
     (forall i : nat, (i < 28)%nat ->
        exists word, source (k + i)%nat = Filled word) ->
     Tests.generator_test crypto k = (Tests.AllPassed, (k + 28)%nat)).
Proof.
  rewrite generator_test_calls. split.
  - intros line.
    destruct (generatePassword crypto (VObject (<["length" := int 16]> ∅)) k)
      as [[pass|e] k1]; [|discriminate].
    destruct (generatePassword crypto
                (VObject (<["length" := int 12]>
                           (<["symbols" := VBoolean false]> ∅))) k1)
      as [[noSymbols|e] k2]; discriminate.
  - intros source -> Hfilled.
    destruct (generation_succeeds source (VObject (<["length" := int 16]> ∅)) k)
      as [pass Hfirst].
    { vm_compute. reflexivity. }
    { apply first_raised_none. intros i Hi. apply Hfilled.
      vm_compute in Hi. lia. }
    rewrite Hfirst.
    destruct (generation_succeeds source
                (VObject (<["length" := int 12]>
                           (<["symbols" := VBoolean false]> ∅)))
                (k + 16)%nat) as [noSymbols Hsecond].
    { vm_compute. reflexivity. }
    { apply first_raised_none. intros i Hi.
      replace (k + 16 + i)%nat with (k + (16 + i))%nat by lia.
      apply Hfilled. vm_compute in Hi. lia. }
    change (Z.to_nat (integer_value
              (length_of (VObject (<["length" := int 16]> ∅))))) with 16%nat.
    rewrite Hsecond. f_equal.
    change (Z.to_nat (integer_value
              (length_of (VObject (<["length" := int 12]>
                                     (<["symbols" := VBoolean false]> ∅))))))
      with 12%nat.
    lia.
Qed.

Lemma test_script_passes_witness :
  (forall line : nat,
     fst (Tests.generator_test (CryptoObject (Some counting_source)) 0%nat)
     <> Tests.AssertionFailed line) /\
  (forall source : random_source,
     CryptoObject (Some counting_source) = CryptoObject (Some source) ->
     (forall i : nat, (i < 28)%nat ->
        exists word, source (0 + i)%nat = Filled word) ->
     Tests.generator_test (CryptoObject (Some counting_source)) 0%nat
     = (Tests.AllPassed, (0 + 28)%nat)).
Proof.
  exact (test_script_passes (CryptoObject (Some counting_source)) 0%nat).
Defined.

(** * Composition *)

Lemma get_beyond (s : string) (i : nat) :
  (String.length s <= i)%nat -> String.get i s = None.
Proof.
  intros Hi. rewrite get_chars. apply lookup_ge_None_2.
  by rewrite length_chars.
Qed.

Lemma for_loop_sources
    (source1 source2 : random_source) (charset : string) (maxAttempts : Z)
    (n : nat) (s : loop_state) (k : nat) :
  (forall i : nat, (i < n)%nat -> source1 (k + i)%nat = source2 (k + i)%nat) ->
  for_loop n (loop_body source1 charset maxAttempts) s k
  = for_loop n (loop_body source2 charset maxAttempts) s k.
Proof.
  revert s k. induction n as [|n IH]; intros s k Hsame; [reflexivity|].
  cbn [for_loop]. unfold bind.
  assert (Hbody : loop_body source1 charset maxAttempts s k
                  = loop_body source2 charset maxAttempts s k).
  { unfold loop_body, bind, getRandomValues.
    specialize (Hsame O ltac:(lia)). rewrite Nat.add_0_r in Hsame.
    destruct (maxAttempts <? attempts s + 1); [reflexivity|].
    cbv beta. by rewrite Hsame. }
  rewrite Hbody.
  destruct (loop_body source2 charset maxAttempts s k) as [[s1|e] k1] eqn:Hk;
    [|reflexivity].
  apply loop_body_attempts in Hk as [_ ->].
  apply IH. intros i Hi.
  replace (S k + i)%nat with (k + S i)%nat by lia. apply Hsame. lia.
Qed.

(** X17. A call reads no draw beyond the [length] it is asked for: two sources
    that agree on the next [length] draws give the same outcome and the
    same count of draws. *)
Theorem draws_beyond_length_unused
    (source1 source2 : random_source) (options : value) (k : nat) :
  (forall i : nat, Z.of_nat i < integer_value (length_of options) ->
     source1 (k + i)%nat = source2 (k + i)%nat) ->
  generatePassword (CryptoObject (Some source1)) options k
  = generatePassword (CryptoObject (Some source2)) options k.
Proof.
  intros Hsame.
  destruct (first_failure (validation_checks (CryptoObject (Some source1)) options))
    as [e|] eqn:Hchecks.
  - rewrite (generatePassword_validation_failure _ _ k e Hchecks).
    symmetry. by apply generatePassword_validation_failure.
  - apply validation_passed in Hchecks
      as (fields & source & n & s & r & Hrecord & _ & Hlength & Hrange & Hs & Hr).
    rewrite Hlength, integer_value_int in Hsame.
    rewrite !(generatePassword_loop fields _ n s r options k
                Hrecord Hlength Hrange Hs Hr).
    unfold bind.
    rewrite (for_loop_sources source1 source2); [reflexivity|].
    intros i Hi. apply Hsame. lia.
Qed.

Lemma draws_beyond_length_unused_witness :
  generatePassword (CryptoObject (Some counting_source))
    (options_object (Some (int 3)) None None) 0%nat
  = generatePassword
      (CryptoObject
         (Some (fun k => if (k <? 3)%nat then counting_source k
                         else Raised "late")))
      (options_object (Some (int 3)) None None) 0%nat.
Proof.
  apply (draws_beyond_length_unused counting_source
           (fun k => if (k <? 3)%nat then counting_source k else Raised "late")
           (options_object (Some (int 3)) None None) 0%nat).
  intros i Hi.
  assert (Hlt : (i < 3)%nat).
  { change (integer_value (length_of (options_object (Some (int 3)) None None)))
      with 3 in Hi. lia. }
  cbn [Nat.add]. apply Nat.ltb_lt in Hlt. by rewrite Hlt.
Defined.

Lemma flags_of_options_object (length1 length2 symbols readable : option value) :
  symbols_of (options_object length1 symbols readable)
    = symbols_of (options_object length2 symbols readable) /\
  readable_of (options_object length1 symbols readable)
    = readable_of (options_object length2 symbols readable).
Proof.
  unfold symbols_of, readable_of, destructure.
  cbn [default_parameter options_object].
  destruct (property_options_object length1 symbols readable) as (_ & -> & ->).
  destruct (property_options_object length2 symbols readable) as (_ & -> & ->).
  split; reflexivity.
Qed.

(** X18. Generation composes: a password of [a] characters followed by one of
    [b] characters generated next, with the same symbols and readable
    options, is the password of [a + b] characters the generator returns
    from where the first call started, when [a + b] is at most 1000. *)
Theorem split_generation
    (crypto : crypto_global) (symbols readable : option value)
    (a b : Z) (k ka kb : nat) (pa pb : string) :
  generatePassword crypto (options_object (Some (int a)) symbols readable) k
    = (Normal pa, ka) ->
  generatePassword crypto (options_object (Some (int b)) symbols readable) ka
    = (Normal pb, kb) ->
  a + b <= 1000 ->
  generatePassword crypto
    (options_object (Some (int (a + b))) symbols readable) k
  = (Normal (pa +:+ pb), kb).
Proof.
  intros Hcalla Hcallb Hsum.
  set (oa := options_object (Some (int a)) symbols readable) in *.
  set (ob := options_object (Some (int b)) symbols readable) in *.
  set (oab := options_object (Some (int (a + b))) symbols readable).
  destruct (generatePassword_success _ _ _ _ _ Hcalla)
    as (na & s & r & Hla & Hra & Hs & Hr & Hlena & Hka & _).
  destruct (generatePassword_success _ _ _ _ _ Hcallb)
    as (nb & _ & _ & Hlb & Hrb & _ & _ & Hlenb & Hkb & _).
  assert (na = a) as ->.
  { unfold oa in Hla. rewrite length_of_options_object in Hla.
    apply (f_equal integer_value) in Hla.
    by rewrite !integer_value_int in Hla. }
  assert (nb = b) as ->.
  { unfold ob in Hlb. rewrite length_of_options_object in Hlb.
    apply (f_equal integer_value) in Hlb.
    by rewrite !integer_value_int in Hlb. }
  destruct (generatePassword_sampled _ _ _ _ _ Hcalla) as (source & -> & Hsela).
  destruct (generatePassword_sampled _ _ _ _ _ Hcallb) as (source' & [= <-] & Hselb).
  destruct (flags_of_options_object (Some (int a)) (Some (int (a + b)))
              symbols readable) as [Hsab Hrab].
  destruct (flags_of_options_object (Some (int a)) (Some (int b))
              symbols readable) as [Hsb Hrb'].
  fold oa oab in Hsab, Hrab. fold oa ob in Hsb, Hrb'.
  assert (Hcharset_ab : charset_of oab = charset_of oa).
  { unfold charset_of. by rewrite <- Hsab, <- Hrab. }
  assert (Hcharset_b : charset_of ob = charset_of oa).
  { unfold charset_of. by rewrite <- Hsb, <- Hrb'. }
  assert (Hchecks : first_failure
            (validation_checks (CryptoObject (Some source)) oab) = None).
  { unfold validation_checks. cbn [first_failure].
    unfold oab at 2 3 4. rewrite length_of_options_object, integer_value_int.
    rewrite (proj2 (is_integer_iff (int (a + b)))) by eauto.
    rewrite <- Hsab, <- Hrab, Hs, Hr.
    cbn [oab options_object default_parameter is_record is_boolean
         source_available].
    destruct (Z.leb_spec 1 (a + b)); [|lia].
    destruct (Z.leb_spec (a + b) 1000); [|lia]. reflexivity. }
  assert (Hlab : length_of oab = int (a + b))
    by apply length_of_options_object.
  destruct (generation_succeeds source oab k Hchecks) as [pw Hcall].
  { rewrite Hlab, integer_value_int. apply first_raised_none. intros i Hi.
    destruct (decide (i < String.length pa)%nat) as [Hia|Hia].
    - destruct (Hsela i Hia) as (word & Hword & _). by exists word.
    - destruct (Hselb (i - String.length pa)%nat) as (word & Hword & _); [lia|].
      exists word. rewrite <- Hword. f_equal. lia. }
  rewrite Hlab, integer_value_int in Hcall. rewrite Hcall.
  destruct (generatePassword_success _ _ _ _ _ Hcall)
    as (n & _ & _ & Hl & _ & _ & _ & Hlen & _).
  rewrite Hlab in Hl. apply (f_equal integer_value) in Hl.
  rewrite !integer_value_int in Hl. subst n.
  destruct (generatePassword_sampled _ _ _ _ _ Hcall) as (source' & [= <-] & Hsel).
  f_equal; [|lia]. f_equal. apply get_correct. intros i.
  destruct (decide (i < String.length pw)%nat) as [Hi|Hi].
  - destruct (Hsel i Hi) as (word & Hword & ->). rewrite Hcharset_ab.
    destruct (decide (i < String.length pa)%nat) as [Hia|Hia].
    + rewrite <- append_correct1 by exact Hia.
      destruct (Hsela i Hia) as (word' & Hword' & ->). congruence.
    + replace (String.get i (pa +:+ pb))
        with (String.get (i - String.length pa + String.length pa) (pa +:+ pb))
        by (f_equal; lia).
      rewrite <- append_correct2.
      destruct (Hselb (i - String.length pa)%nat) as (word' & Hword' & ->); [lia|].
      rewrite Hcharset_b.
      replace (ka + (i - String.length pa))%nat with (k + i)%nat in Hword' by lia.
      congruence.
  - rewrite !get_beyond; [reflexivity | | lia].
    rewrite length_append. lia.
Qed.

Lemma split_generation_witness :
  generatePassword (CryptoObject (Some counting_source))
    (options_object (Some (int (12 + 4))) None None) 0%nat
  = (Normal ("dkryFMT07%+?" +:+ "elsz"), 16%nat).
Proof.
  apply (split_generation (CryptoObject (Some counting_source)) None None
           12 4 0%nat 12%nat 16%nat "dkryFMT07%+?" "elsz").
  - vm_compute. reflexivity.
  - vm_compute. reflexivity.
  - lia.
Defined.

(** X19. When copying to the clipboard fails, the program exits with code 1
    although the generator had returned a password of the requested
    length, already shown, and had made its draws. *)
Theorem clipboard_failure
    (crypto : crypto_global) (clipboard : Program.clipboard_writer)
    (options : Program.program_options) (k k' : nat)
    (pw : string) (report : option Program.details) (message : string) :
  Program.main crypto clipboard options k
    = (Program.ClipboardFailed pw report message, k') ->
  clipboard pw = Some message /\
  parseInt (Program.length options) = Some (Z.of_nat (String.length pw)) /\
  k' = (k + String.length pw)%nat /\
  (0 < String.length pw)%nat /\
  Program.exit_code (Program.ClipboardFailed pw report message) = 1.
Proof.
  intros Hmain.
  destruct (main_cases crypto clipboard options k)
    as [[_ Heq]|[(n & e1 & k1 & _ & _ & _ & Heq)
                |(n & pw1 & k1 & Hparse & Hrange & Hcall & Heq)]];
    rewrite Heq in Hmain; try discriminate.
  destruct (displayPassword_outcome clipboard pw1 options)
    as [(report1 & message1 & Hd & Hclip)|(report1 & Hd & _)];
    rewrite Hd in Hmain; [|discriminate].
  injection Hmain as -> -> -> ->.
  destruct (generatePassword_success _ _ _ _ _ Hcall)
    as (n' & _ & _ & Hlength & _ & _ & _ & Hlen & Hk & _).
  destruct (generator_options_read n options) as (Hl & _).
  rewrite Hl in Hlength. apply (f_equal integer_value) in Hlength.
  rewrite !integer_value_int in Hlength. subst n'.
  repeat split; try assumption; try lia.
  by rewrite Hlen.
Qed.

Lemma clipboard_failure_witness :
  (fun _ : string => Some "no display") "dkry" = Some "no display" /\
  parseInt "4" = Some (Z.of_nat (String.length "dkry")) /\
  4%nat = (0 + String.length "dkry")%nat /\
  (0 < String.length "dkry")%nat /\
  Program.exit_code (Program.ClipboardFailed "dkry" None "no display") = 1.
Proof.
  apply (clipboard_failure (CryptoObject (Some counting_source))
           (fun _ => Some "no display")
           {| Program.length := "4"; Program.symbols := true;
              Program.readable := false; Program.verbose := false |} 0%nat).
  vm_compute. reflexivity.
Defined.
